(** * TrackTik bulk PDF downloader: a model of [app.py] and its properties

    The script logs into a portal, reads report descriptors from a CSV and
    fetches one PDF per row into a ZIP archive.  The model below follows
    [app.py] function by function.  Everything the script gets from its
    libraries and from the outside world (the network, the HTML parser,
    Unicode lowercasing, [urljoin] on non-empty arguments, what
    [ZipFile.writestr] makes of a member name, the IDs of Streamlit's
    widgets) is collected in the class [Platform]; models of
    [urllib.parse.urljoin] and of the member names of [zipfile] are given
    separately in [Urllib] and [Zipfile]. *)

From stdpp Require Import base decidable option list gmap strings.
From Stdlib Require Import ZArith NArith Lia.

Local Open Scope Z_scope.

(** ** Python values *)

(** A Python [str] is a sequence of Unicode code points. *)
Abbreviation char := N.
Abbreviation pystr := (list char).

(** A Python [bytes] object. *)
Abbreviation bytes := (list Byte.byte).

(** String and bytes literals of the source. *)
Definition lit (s : string) : pystr :=
  map Ascii.N_of_ascii (String.list_ascii_of_string s).

Definition blit (s : string) : bytes := String.list_byte_of_string s.

#[global] Instance byte_eq_dec : EqDecision Byte.byte := Byte.byte_eq_dec.

(** [b.startswith(p)] on [bytes] and on [str]. *)
Definition startswith {A} `{EqDecision A} (b p : list A) : bool :=
  bool_decide (p `prefix_of` b).

(** [needle in hay] on [str]: a contiguous occurrence. *)
Fixpoint contains (needle hay : pystr) : bool :=
  startswith hay needle ||
  match hay with
  | [] => false
  | _ :: rest => contains needle rest
  end.

(** A cell of a data frame read with [dtype=str]: a string, or [NaN] where
    the CSV has no value. *)
Inductive cell :=
| Str (s : pystr)
| NaN.

#[global] Instance cell_eq_dec : EqDecision cell.
Proof. solve_decision. Defined.

(** [str(v)], which is also what an f-string field [{v}] renders. *)
Definition py_str (v : cell) : pystr :=
  match v with
  | Str s => s
  | NaN => lit "nan"
  end.

(** ** Helper functions *)

(** The character class of the pattern in [safe_filename], in the order
    of the source: backslash (written escaped), slash, star, question
    mark, colon, double quote, less-than, greater-than, bar. *)
Definition forbidden : list char := [92; 47; 42; 63; 58; 34; 60; 62; 124]%N.

(** [re.sub(p, repl, s)] when [p] is a single character class and [repl]
    has no escapes: every match is one character long, matches are found
    left to right and each is replaced by [repl]. *)
Definition re_sub_class (cls : list char) (repl s : pystr) : pystr :=
  flat_map (fun c => if bool_decide (c ∈ cls) then repl else [c]) s.

(** [safe_filename(s)]: [re.sub] of that class by an underscore, applied
    to [str(s)]. *)
Definition safe_filename (s : cell) : pystr :=
  re_sub_class forbidden (lit "_") (py_str s).

(** ** The outside world *)

(** An exception raised by a library call, given by its text. *)
Abbreviation exn := pystr (only parsing).

Inductive Method := GET | POST.

(** The cookie jar of a session keeps its cookies by domain, path and
    name.  A cookie has a value and further attributes (expiry, the
    secure flag and so on). *)
Abbreviation CookieKey := (pystr * pystr * pystr)%type.

Record Cookie := {
  ck_value : pystr;
  ck_attrs : list (pystr * pystr);
}.

Abbreviation Jar := (gmap CookieKey Cookie).

(** What the jar takes from the [Set-Cookie] headers of a response: a
    cookie to keep under its domain, path and name, or, for a cookie
    that has expired, the key to clear. *)
Inductive CookieUpdate :=
| SetCookie (k : CookieKey) (c : Cookie)
| ClearCookie (k : CookieKey).

(** One update of a jar: a cookie is stored under its key, in the place
    of the one stored there before, or a key is cleared. *)
Definition apply_update (jar : Jar) (u : CookieUpdate) : Jar :=
  match u with
  | SetCookie k c => <[k := c]> jar
  | ClearCookie k => delete k jar
  end.

(** A [requests.Session]: the headers of the session and its cookie jar. *)
Record Session := {
  headers : gmap pystr pystr;
  cookies : Jar;
}.

(** A call of the session's [request] method as the library gets it:
    the method, the URL, the form payload (a value being [None] where
    the script passes Python's [None]), [allow_redirects] and [timeout],
    with the session's headers and its cookie jar at the time of the
    call.  Which cookies of the jar go out with the request, and with
    the requests of the redirects it follows, is the library's choice
    by domain, path and expiry; it is part of [send]. *)
Record Request := {
  req_method : Method;
  req_url : pystr;
  req_headers : gmap pystr pystr;
  req_jar : Jar;
  req_data : list (pystr * option pystr);
  req_allow_redirects : bool;
  req_timeout : Z;
}.

(** A [requests.Response]: [r.status_code], [r.content], [r.text]. *)
Record Response := {
  status_code : Z;
  content : bytes;
  text : pystr;
}.

(** What comes back for one call: the updates of the jar that the
    responses of the exchange (with the redirects it followed) bring, in
    the order the jar applies them, and either an exception or the final
    response. *)
Record Reply := {
  set_cookies : list CookieUpdate;
  result : exn + Response;
}.

(** An element of a parsed HTML document: its name and attributes. *)
Record Tag := {
  tag_name : pystr;
  attrs : gmap pystr pystr;
}.

(** A pandas [Series] (one row, by column label) and a [DataFrame]. *)
Abbreviation Series := (gmap pystr cell).

Record DataFrame := {
  columns : list pystr;
  rows : list Series;
}.

(** The four fields the loop reads from a row. *)
Record Descriptor := {
  rid : cell;
  reportname : cell;
  account_name : cell;
  date : cell;
}.

(** The texts the script shows, with the values of their f-string fields. *)
Inductive message :=
| CouldNotLoadLoginPage (e : exn)
| CouldNotLoadLoginPageStatus (status : Z)
| CsrfTokenNotFound
| LoginRequestFailed (e : exn)
| LoginSuccessful
| LoginSent
| LoginFailed (status : Z)
| PleaseFillAllFields
| FailedToReadCsv (e : exn)
| CsvMustContainColumns
| LoadedCsv
| DownloadingPdfs
| Failed (rid : cell) (e : exn)
| FailedStatus (rid : cell) (status : Z)
| Saved (filename : pystr)
| DownloadFile (filename : pystr)
| DownloadAllAsZip
| DownloadZip
| PleaseLoginFirst
| AppTitle
| Rule.

(** The [data] of a download button: bytes of a response, or the value of
    the ZIP buffer, given by the members written to it. *)
Inductive Data :=
| RawBytes (b : bytes)
| ZipArchive (entries : list (pystr * bytes)).

(** Calls to Streamlit's output functions. *)
Inductive ui_event :=
| st_title (m : message)
| st_error (m : message)
| st_success (m : message)
| st_write (m : message)
| st_dataframe (df : DataFrame)
| st_markdown (m : message)
| st_download_button (label : message) (data : Data) (file_name mime : pystr).

(** How a run of the script, or of a part of it, ends: it runs to its
    end, [st.stop()] halts it, or an exception escapes: a [KeyError] for
    a row label, Streamlit's [DuplicateWidgetID] (in recent versions
    [StreamlitDuplicateElementId]) for a second widget with the ID of an
    earlier one, the [ValueError] of a call of [urljoin], or what a call
    of [zf.writestr] raises. *)
Inductive Exit :=
| Finished
| Stopped
| KeyError (key : pystr)
| DuplicateWidgetID
| ValueError (e : exn)
| WritestrError (e : exn).

#[global] Instance Exit_eq_dec : EqDecision Exit.
Proof. solve_decision. Defined.

(** What the script takes from its libraries and its environment:
    the portal behind the network and the library that talks to it
    ([send]: one call of the session, one reply, the world moving to a
    new state), the headers of a fresh [requests.Session()],
    [BeautifulSoup(text, 'html.parser')] as the elements of the document
    in document order, [str.lower], [urllib.parse.urljoin] on two
    non-empty strings (the joined URL, or the text of the [ValueError]
    it raises), the name under which [ZipFile.writestr] stores a member
    (or the exception it raises for the name), and the ID that Streamlit
    computes for a download button without [key] from its parameters. *)
Class Platform := {
  World : Type;
  send : World → Request → World * Reply;
  default_headers : gmap pystr pystr;
  html_parser : pystr → list Tag;
  str_lower : pystr → pystr;
  urljoin_parsed : pystr → pystr → exn + pystr;
  zip_member_name : pystr → exn + pystr;
  download_button_id : message → Data → pystr → pystr → pystr;
}.

(** The network as the script sees it: the state of the world and, for
    the record, the calls made so far, oldest first. *)
Record Net `{Platform} := {
  world : World;
  sent : list Request;
}.

Section Script.
Context `{Platform}.

(** ** [requests] *)

(** [requests.Session()]. *)
Definition new_session : Session :=
  {| headers := default_headers; cookies := ∅ |}.

(** The jar after the updates of a reply, applied in their order. *)
Definition store_cookies (cs : list CookieUpdate) (jar : Jar) : Jar :=
  foldl apply_update jar cs.

(** The call a session makes: it comes with the session's headers and
    with its jar. *)
Definition prepare (m : Method) (url : pystr)
    (data : list (pystr * option pystr)) (allow_redirects : bool) (timeout : Z)
    (session : Session) : Request :=
  {| req_method := m; req_url := url;
     req_headers := headers session;
     req_jar := cookies session;
     req_data := data;
     req_allow_redirects := allow_redirects;
     req_timeout := timeout |}.

(** [session.request(...)]: the call is made, and the jar of the
    session takes the updates of the reply. *)
Definition session_request (m : Method) (url : pystr)
    (data : list (pystr * option pystr)) (allow_redirects : bool) (timeout : Z)
    (session : Session) (net : Net) : Net * Session * (exn + Response) :=
  let req := prepare m url data allow_redirects timeout session in
  let (w, reply) := send (world net) req in
  ({| world := w; sent := sent net ++ [req] |},
   {| headers := headers session;
      cookies := store_cookies (set_cookies reply) (cookies session) |},
   result reply).

(** [session.get(url, timeout=t)]. *)
Definition session_get (url : pystr) (timeout : Z) :=
  session_request GET url [] true timeout.

(** [session.post(url, data=d, allow_redirects=a, timeout=t)]. *)
Definition session_post (url : pystr) (data : list (pystr * option pystr))
    (allow_redirects : bool) (timeout : Z) :=
  session_request POST url data allow_redirects timeout.

(** ** [urljoin] *)

(** [urljoin(base, url)]: the library returns [url] for an empty [base]
    and [base] for an empty [url]; else it parses both, which raises
    [ValueError] for some strings. *)
Definition urljoin (base url : pystr) : exn + pystr :=
  if bool_decide (base = []) then inr url
  else if bool_decide (url = []) then inr base
  else urljoin_parsed base url.

(** ** BeautifulSoup *)

(** [soup.find(name, {attr: value})]: the first element, in document
    order, with that name and that attribute value; [None] without one. *)
Definition find (soup : list Tag) (name attr value : pystr) : option Tag :=
  head (filter (fun t => tag_name t = name ∧ attrs t !! attr = Some value) soup).

(** ** [perform_login] *)

(** The form [payload] of the login POST; [csrf_token] is [None] when
    [token_input.get('value')] is. *)
Definition login_payload (username password : pystr) (csrf_token : option pystr)
  : list (pystr * option pystr) :=
  [ (lit "email", Some username);
    (lit "password", Some password);
    (lit "_csrf_token", csrf_token);
    (lit "locale", Some (lit "en_us"));
    (lit "submit", Some (lit "Login")) ].

(** [perform_login]: the network after the call and what the call
    returns, the pair of a session or [None] and a message; or, where a
    call of [urljoin] raises, the text of that [ValueError], which the
    function does not catch. *)
Definition perform_login (username password base_url : pystr) (net : Net)
  : Net * (exn + option Session * message) :=
  let session := new_session in
  match urljoin base_url [] with
  | inl e => (net, inl e)
  | inr login_page_url =>
    let '(net, session, r) := session_get login_page_url 15 session net in
    match r with
    | inl e => (net, inr (None, CouldNotLoadLoginPage e))
    | inr r =>
      if bool_decide (status_code r ≠ 200) then
        (net, inr (None, CouldNotLoadLoginPageStatus (status_code r)))
      else
        let soup := html_parser (text r) in
        match find soup (lit "input") (lit "name") (lit "_csrf_token") with
        | None => (net, inr (None, CsrfTokenNotFound))
        | Some token_input =>
          let csrf_token := attrs token_input !! lit "value" in
          let payload := login_payload username password csrf_token in
          let login_action := lit "/form/secursignin/signin" in
          match urljoin base_url login_action with
          | inl e => (net, inl e)
          | inr login_url =>
            let '(net, session, resp) :=
              session_post login_url payload true 15 session net in
            match resp with
            | inl e => (net, inr (None, LoginRequestFailed e))
            | inr resp =>
              if bool_decide (status_code resp = 200)
                 && contains (lit "logout") (str_lower (text resp))
              then (net, inr (Some session, LoginSuccessful))
              else if bool_decide (status_code resp ∈ [200; 302])
              then (net, inr (Some session, LoginSent))
              else (net, inr (None, LoginFailed (status_code resp)))
            end
          end
        end
    end
  end.

(** ** The download loop *)

(** [required_cols.issubset(df.columns)]. *)
Definition required_cols : list pystr :=
  [lit "id"; lit "reportname"; lit "account.name"; lit "date"].

Definition issubset (s cols : list pystr) : bool :=
  forallb (fun c => bool_decide (c ∈ cols)) s.

(** [row[key]]: the value, or [KeyError(key)]. *)
Definition getitem (row : Series) (key : pystr) : pystr + cell :=
  match row !! key with
  | Some v => inr v
  | None => inl key
  end.

(** The subscript reads of one iteration, in the order the body makes
    them; all of them come before the iteration's request. *)
Definition row_descriptor (row : Series) : pystr + Descriptor :=
  match getitem row (lit "id") with
  | inl k => inl k
  | inr i =>
    match getitem row (lit "reportname") with
    | inl k => inl k
    | inr n =>
      match getitem row (lit "account.name") with
      | inl k => inl k
      | inr a =>
        match getitem row (lit "date") with
        | inl k => inl k
        | inr d =>
          inr {| rid := i; reportname := n; account_name := a; date := d |}
        end
      end
    end
  end.

(** An f-string: its literal parts and rendered fields, joined. *)
Definition fstring (parts : list pystr) : pystr := concat parts.

(** The [filename] of a row. *)
Definition filename (d : Descriptor) : pystr :=
  fstring [ safe_filename (reportname d); lit "_";
            safe_filename (account_name d); lit "_";
            safe_filename (date d); lit "_("; py_str (rid d); lit ").pdf" ].

(** The [pdf_url] of a row. *)
Definition pdf_url (report_base_url : pystr) (d : Descriptor) : pystr :=
  fstring [ report_base_url; py_str (rid d) ].

(** [report_base_url]. *)
Definition report_base_url (base_url : pystr) : exn + pystr :=
  urljoin base_url (lit "/patrol/default/viewreportprintable/idreport/").

(** [zf.writestr(name, data)]: the library makes the member name from
    [name] and adds the member with that name and the data, or raises
    for the name and leaves the archive as it is. *)
Definition writestr (zf : list (pystr * bytes)) (name : pystr) (data : bytes)
  : exn + list (pystr * bytes) :=
  match zip_member_name name with
  | inl e => inl e
  | inr member => inr (zf ++ [(member, data)])
  end.

(** The state the loop works on: the network, the session object, the
    members of the open archive, the output shown so far and the IDs of
    the download buttons made so far in the run. *)
Record Loop := {
  l_net : Net;
  l_session : Session;
  l_zf : list (pystr * bytes);
  l_ui : list ui_event;
  l_ids : list pystr;
}.

(** [st.download_button(label, data, file_name, mime)], called without
    [key]: the button gets the ID computed from its parameters; when a
    download button of the run already has that ID, Streamlit's check for
    duplicate widgets makes the call raise, else the button is shown. *)
Definition download_button (label : message) (data : Data) (file_name mime : pystr)
    (ids : list pystr) : option (list pystr * ui_event) :=
  let id := download_button_id label data file_name mime in
  if bool_decide (id ∈ ids) then None
  else Some (ids ++ [id], st_download_button label data file_name mime).

(** The test of the response: [r.status_code == 200 and
    r.content.startswith(b'%PDF')]. *)
Definition is_pdf (r : Response) : bool :=
  bool_decide (status_code r = 200) && startswith (content r) (blit "%PDF").

(** The body of the loop for a row whose fields have been read, with
    how it ends: [Finished] when the loop goes on with the next row. *)
Definition fetch_descriptor (base : pystr) (d : Descriptor) (l : Loop)
  : Loop * Exit :=
  let '(net, session, r) :=
    session_get (pdf_url base d) 20 (l_session l) (l_net l) in
  match r with
  | inl e =>
    ({| l_net := net; l_session := session; l_zf := l_zf l;
        l_ui := l_ui l ++ [st_error (Failed (rid d) e)];
        l_ids := l_ids l |}, Finished)
  | inr r =>
    if is_pdf r then
      match writestr (l_zf l) (filename d) (content r) with
      | inl e =>
        ({| l_net := net; l_session := session; l_zf := l_zf l;
            l_ui := l_ui l; l_ids := l_ids l |}, WritestrError e)
      | inr zf =>
        let ui := l_ui l ++ [st_success (Saved (filename d))] in
        match download_button (DownloadFile (filename d)) (RawBytes (content r))
                (filename d) (lit "application/pdf") (l_ids l) with
        | Some (ids, button) =>
          ({| l_net := net; l_session := session; l_zf := zf;
              l_ui := ui ++ [button]; l_ids := ids |}, Finished)
        | None =>
          ({| l_net := net; l_session := session; l_zf := zf;
              l_ui := ui; l_ids := l_ids l |}, DuplicateWidgetID)
        end
      end
    else
      ({| l_net := net; l_session := session; l_zf := l_zf l;
          l_ui := l_ui l ++ [st_error (FailedStatus (rid d) (status_code r))];
          l_ids := l_ids l |}, Finished)
  end.

(** [for idx, row in df.iterrows(): ...]. *)
Fixpoint fetch_rows (base : pystr) (rs : list Series) (l : Loop) : Loop * Exit :=
  match rs with
  | [] => (l, Finished)
  | row :: rs' =>
    match row_descriptor row with
    | inl k => (l, KeyError k)
    | inr d =>
      match fetch_descriptor base d l with
      | (l', Finished) => fetch_rows base rs' l'
      | stop => stop
      end
    end
  end.

(** ** The script *)

(** What outlives a run: the world and [st.session_state], which holds
    the session object once a login has succeeded. *)
Record App := {
  app_net : Net;
  app_session : option Session;
}.

(** The widgets of a run: the three text inputs, whether the Login button
    was pressed, and the uploaded file as [pd.read_csv] reads it. *)
Record Inputs := {
  base_url : pystr;
  username : pystr;
  password : pystr;
  login_pressed : bool;
  uploaded_csv : option (exn + DataFrame);
}.

(** The result of a run or of a part of it.  [out_zip] is [None] as long
    as no [ZipFile] was created. *)
Record Outcome := {
  out_app : App;
  out_ui : list ui_event;
  out_zip : option (list (pystr * bytes));
  out_exit : Exit;
}.

(** [if st.button('Login'): ...], with how this part ends: [Finished]
    when the script goes on below it. *)
Definition login_section (i : Inputs) (a : App) : App * list ui_event * Exit :=
  if login_pressed i then
    if bool_decide (base_url i = []) || bool_decide (username i = [])
       || bool_decide (password i = [])
    then (a, [st_error PleaseFillAllFields], Finished)
    else
      let (net, returned) :=
        perform_login (username i) (password i) (base_url i) (app_net a) in
      match returned with
      | inl e =>
        ({| app_net := net; app_session := app_session a |}, [], ValueError e)
      | inr (Some s, msg) =>
        ({| app_net := net; app_session := Some s |}, [st_success msg], Finished)
      | inr (None, msg) =>
        ({| app_net := net; app_session := app_session a |}, [st_error msg],
         Finished)
      end
  else (a, [], Finished).

(** The loop state when the loop is entered: a new, empty archive, the
    output shown for the frame, and no download button yet (the widgets
    made before are of other kinds, with IDs of their own). *)
Definition loop_start (a : App) (session : Session) (df : DataFrame) : Loop :=
  {| l_net := app_net a; l_session := session; l_zf := [];
     l_ui := [st_write LoadedCsv; st_dataframe df; st_markdown DownloadingPdfs];
     l_ids := [] |}.

(** [if uploaded_csv and 'session' in st.session_state: ... elif ...]. *)
Definition bulk_section (i : Inputs) (a : App) : Outcome :=
  match uploaded_csv i, app_session a with
  | Some upload, Some session =>
    match upload with
    | inl e =>
      {| out_app := a; out_ui := [st_error (FailedToReadCsv e)];
         out_zip := None; out_exit := Stopped |}
    | inr df =>
      if negb (issubset required_cols (columns df)) then
        {| out_app := a; out_ui := [st_error CsvMustContainColumns];
           out_zip := None; out_exit := Stopped |}
      else
        match report_base_url (base_url i) with
        | inl e =>
          {| out_app := a; out_ui := [st_write LoadedCsv; st_dataframe df];
             out_zip := None; out_exit := ValueError e |}
        | inr base =>
          let (l, exit) :=
            fetch_rows base (rows df) (loop_start a session df) in
          let app := {| app_net := l_net l; app_session := Some (l_session l) |} in
          match exit with
          | Finished =>
            match download_button DownloadZip (ZipArchive (l_zf l))
                    (lit "all_reports.zip") (lit "application/zip") (l_ids l) with
            | Some (_, button) =>
              {| out_app := app;
                 out_ui := l_ui l ++ [st_markdown DownloadAllAsZip; button];
                 out_zip := Some (l_zf l); out_exit := Finished |}
            | None =>
              {| out_app := app;
                 out_ui := l_ui l ++ [st_markdown DownloadAllAsZip];
                 out_zip := Some (l_zf l); out_exit := DuplicateWidgetID |}
            end
          | _ =>
            {| out_app := app; out_ui := l_ui l;
               out_zip := Some (l_zf l); out_exit := exit |}
          end
        end
    end
  | Some _, None =>
    {| out_app := a; out_ui := [st_error PleaseLoginFirst];
       out_zip := None; out_exit := Finished |}
  | None, _ =>
    {| out_app := a; out_ui := []; out_zip := None; out_exit := Finished |}
  end.

(** One run of the script: the title, the login part and, when that
    part has not ended the run, the rule and the download part. *)
Definition script (i : Inputs) (a : App) : Outcome :=
  let '(a, ui, exit) := login_section i a in
  match exit with
  | Finished =>
    let o := bulk_section i a in
    {| out_app := out_app o;
       out_ui := [st_title AppTitle] ++ ui ++ [st_markdown Rule] ++ out_ui o;
       out_zip := out_zip o; out_exit := out_exit o |}
  | _ =>
    {| out_app := a; out_ui := [st_title AppTitle] ++ ui;
       out_zip := None; out_exit := exit |}
  end.

End Script.

(** ** A model of [urllib.parse.urljoin]

    The functions follow those of CPython's [urllib.parse] (as of 3.11)
    by name.  [urlsplit] raises [ValueError] for an authority that holds
    one kind of square bracket and not the other; that check is modelled.
    Two further checks of the authority are parameters of the model:
    [_check_bracketed_netloc], made when the authority holds both
    brackets, and the normalisation check of [_checknetloc], made when
    the authority is not empty and not ASCII.  Each gives the text of
    the [ValueError] it raises, or [None]. *)
Module Urllib.

(** [s.split(c, 1)] when [c] occurs in [s]: the text before its first
    occurrence and the text after it. *)
Fixpoint partition_at (c : char) (s : pystr) : option (pystr * pystr) :=
  match s with
  | [] => None
  | x :: s' =>
    if bool_decide (x = c) then Some ([], s')
    else match partition_at c s' with
         | Some (a, b) => Some (x :: a, b)
         | None => None
         end
  end.

(** [s.split(c)]. *)
Fixpoint split (c : char) (s : pystr) : list pystr :=
  match s with
  | [] => [[]]
  | x :: s' =>
    if bool_decide (x = c) then [] :: split c s'
    else match split c s' with
         | seg :: segs => (x :: seg) :: segs
         | [] => [[x]]
         end
  end.

(** [c.join(parts)]. *)
Fixpoint join (c : char) (parts : list pystr) : pystr :=
  match parts with
  | [] => []
  | [p] => p
  | p :: ps => p ++ c :: join c ps
  end.

(** The C0 control characters and the space. *)
Definition c0_or_space (c : char) : bool := bool_decide (c ≤ 32)%N.

Fixpoint lstrip (s : pystr) : pystr :=
  match s with
  | c :: s' => if c0_or_space c then lstrip s' else s
  | [] => []
  end.

Definition strip (s : pystr) : pystr := rev (lstrip (rev (lstrip s))).

(** Tab, line feed and carriage return are removed from a URL. *)
Definition remove_unsafe (s : pystr) : pystr :=
  filter (fun c => c ∉ [9; 10; 13]%N) s.

Definition is_upper (c : char) : bool := bool_decide (65 ≤ c ≤ 90)%N.
Definition is_lower (c : char) : bool := bool_decide (97 ≤ c ≤ 122)%N.
Definition is_digit (c : char) : bool := bool_decide (48 ≤ c ≤ 57)%N.

(** [c.isascii()]. *)
Definition is_ascii (c : char) : bool := bool_decide (c < 128)%N.

(** [scheme_chars]: ASCII letters, digits, plus, minus and dot. *)
Definition scheme_char (c : char) : bool :=
  is_upper c || is_lower c || is_digit c || bool_decide (c ∈ [43; 45; 46]%N).

(** [str.lower] on a string of [scheme_chars]. *)
Definition lower_ascii (s : pystr) : pystr :=
  map (fun c => if is_upper c then (c + 32)%N else c) s.

Definition uses_relative : list pystr :=
  [] :: map lit [ "ftp"; "http"; "gopher"; "nntp"; "imap"; "wais"; "file";
            "https"; "shttp"; "mms"; "prospero"; "rtsp"; "rtspu"; "sftp";
            "svn"; "svn+ssh"; "ws"; "wss" ]%string.

Definition uses_netloc : list pystr :=
  [] :: map lit [ "ftp"; "http"; "gopher"; "nntp"; "telnet"; "imap"; "wais";
            "file"; "mms"; "https"; "shttp"; "snews"; "prospero"; "rtsp";
            "rtspu"; "rsync"; "svn"; "svn+ssh"; "sftp"; "nfs"; "git";
            "git+ssh"; "ws"; "wss" ]%string.

Definition uses_params : list pystr :=
  [] :: map lit [ "ftp"; "hdl"; "prospero"; "http"; "imap"; "https";
            "shttp"; "rtsp"; "rtspu"; "sip"; "sips"; "mms"; "sftp";
            "tel" ]%string.

(** The leading scheme of a URL, if it has one: the text before the first
    colon, when it is not empty, starts with an ASCII letter and holds
    only [scheme_chars]. *)
Definition split_scheme (url : pystr) : option (pystr * pystr) :=
  match partition_at 58 url with
  | Some (c :: s, rest) =>
    if (is_upper c || is_lower c) && forallb scheme_char (c :: s)
    then Some (lower_ascii (c :: s), rest)
    else None
  | _ => None
  end.

(** [_splitnetloc(url, 2)] on a URL that starts with two slashes, after
    these: the authority runs up to the first slash, question mark or
    hash. *)
Fixpoint splitnetloc (s : pystr) : pystr * pystr :=
  match s with
  | [] => ([], [])
  | c :: s' =>
    if bool_decide (c ∈ [47; 63; 35]%N) then ([], s)
    else let (n, r) := splitnetloc s' in (c :: n, r)
  end.

Record SplitResult := {
  sr_scheme : pystr;
  sr_netloc : pystr;
  sr_path : pystr;
  sr_query : pystr;
  sr_fragment : pystr;
}.

Record ParseResult := {
  pr_scheme : pystr;
  pr_netloc : pystr;
  pr_path : pystr;
  pr_params : pystr;
  pr_query : pystr;
  pr_fragment : pystr;
}.

(** [_splitparams(url)] for a [url] that holds a semicolon: the
    parameters start at the first semicolon of the last path segment. *)
Definition splitparams (url : pystr) : pystr * pystr :=
  match rev (split 47 url) with
  | [] => (url, [])
  | last :: before =>
    match partition_at 59 last, before with
    | Some (a, b), _ => (join 47 (rev (a :: before)), b)
    | None, _ => (url, [])
    end
  end.

(** [urlunsplit]. *)
Definition urlunsplit (scheme netloc url query fragment : pystr) : pystr :=
  let url :=
    if bool_decide (netloc ≠ [])
       || (bool_decide (scheme ≠ []) && bool_decide (scheme ∈ uses_netloc)
           && negb (startswith url (lit "//")))
    then
      let url := match url with
                 | [] => []
                 | c :: _ => if bool_decide (c = 47%N) then url else 47%N :: url
                 end in
      lit "//" ++ netloc ++ url
    else url in
  let url := if bool_decide (scheme ≠ []) then scheme ++ 58%N :: url else url in
  let url := if bool_decide (query ≠ []) then url ++ 63%N :: query else url in
  if bool_decide (fragment ≠ []) then url ++ 35%N :: fragment else url.

(** [urlunparse]. *)
Definition urlunparse (scheme netloc url params query fragment : pystr) : pystr :=
  let url := if bool_decide (params ≠ []) then url ++ 59%N :: params else url in
  urlunsplit scheme netloc url query fragment.

(** The loop of [urljoin] over the segments: dot segments are resolved. *)
Definition resolve (segments : list pystr) : list pystr :=
  foldl (fun resolved seg =>
           if bool_decide (seg = lit "..") then removelast resolved
           else if bool_decide (seg = lit ".") then resolved
           else resolved ++ [seg])
        [] segments.

(** [segments[1:-1] = filter(None, segments[1:-1])]. *)
Definition drop_empty_inner (segments : list pystr) : list pystr :=
  match segments with
  | [] => []
  | first :: rest =>
    match rev rest with
    | [] => [first]
    | final :: inner =>
      first :: filter (fun seg => seg ≠ []) (rev inner) ++ [final]
    end
  end.

Section Checks.
Variable check_bracketed_netloc : pystr → option exn.
Variable checknetloc : pystr → option exn.

(** The checks that [urlsplit] makes on the authority, in its order. *)
Definition netloc_error (netloc : pystr) : option exn :=
  let opening := bool_decide (91%N ∈ netloc) in
  let closing := bool_decide (93%N ∈ netloc) in
  if xorb opening closing then Some (lit "Invalid IPv6 URL")
  else
    match (if opening && closing then check_bracketed_netloc netloc else None) with
    | Some e => Some e
    | None =>
      if bool_decide (netloc ≠ []) && negb (forallb is_ascii netloc)
      then checknetloc netloc
      else None
    end.

(** [urlsplit(url, scheme)]. *)
Definition urlsplit (url scheme : pystr) : exn + SplitResult :=
  let url := remove_unsafe (lstrip url) in
  let scheme := remove_unsafe (strip scheme) in
  let (scheme, url) :=
    match split_scheme url with
    | Some (s, rest) => (s, rest)
    | None => (scheme, url)
    end in
  let (netloc, url) :=
    match url with
    | 47%N :: 47%N :: rest => splitnetloc rest
    | _ => ([], url)
    end in
  match netloc_error netloc with
  | Some e => inl e
  | None =>
    let (url, fragment) :=
      match partition_at 35 url with
      | Some (u, f) => (u, f)
      | None => (url, [])
      end in
    let (url, query) :=
      match partition_at 63 url with
      | Some (u, q) => (u, q)
      | None => (url, [])
      end in
    inr {| sr_scheme := scheme; sr_netloc := netloc; sr_path := url;
           sr_query := query; sr_fragment := fragment |}
  end.

(** [urlparse(url, scheme)]. *)
Definition urlparse (url scheme : pystr) : exn + ParseResult :=
  match urlsplit url scheme with
  | inl e => inl e
  | inr r =>
    let (path, params) :=
      if bool_decide (sr_scheme r ∈ uses_params) && bool_decide (59%N ∈ sr_path r)
      then splitparams (sr_path r)
      else (sr_path r, []) in
    inr {| pr_scheme := sr_scheme r; pr_netloc := sr_netloc r; pr_path := path;
           pr_params := params; pr_query := sr_query r;
           pr_fragment := sr_fragment r |}
  end.

(** [urljoin(base, url)]. *)
Definition urljoin (base url : pystr) : exn + pystr :=
  if bool_decide (base = []) then inr url
  else if bool_decide (url = []) then inr base
  else
    match urlparse base [] with
    | inl e => inl e
    | inr b =>
      match urlparse url (pr_scheme b) with
      | inl e => inl e
      | inr u =>
        if bool_decide (pr_scheme u ≠ pr_scheme b)
           || negb (bool_decide (pr_scheme u ∈ uses_relative))
        then inr url
        else if bool_decide (pr_scheme u ∈ uses_netloc)
                && bool_decide (pr_netloc u ≠ [])
        then inr (urlunparse (pr_scheme u) (pr_netloc u) (pr_path u) (pr_params u)
                    (pr_query u) (pr_fragment u))
        else
          let netloc :=
            if bool_decide (pr_scheme u ∈ uses_netloc) then pr_netloc b
            else pr_netloc u in
          if bool_decide (pr_path u = []) && bool_decide (pr_params u = []) then
            inr (urlunparse (pr_scheme u) netloc (pr_path b) (pr_params b)
                   (if bool_decide (pr_query u = []) then pr_query b
                    else pr_query u)
                   (pr_fragment u))
          else
            let base_parts := split 47 (pr_path b) in
            let base_parts :=
              if bool_decide (last base_parts ≠ Some [])
              then removelast base_parts else base_parts in
            let segments :=
              if startswith (pr_path u) (lit "/") then split 47 (pr_path u)
              else drop_empty_inner (base_parts ++ split 47 (pr_path u)) in
            let resolved := resolve segments in
            let resolved :=
              if bool_decide (last segments ∈ [Some (lit "."); Some (lit "..")])
              then resolved ++ [[]] else resolved in
            let path := join 47 resolved in
            inr (urlunparse (pr_scheme u) netloc
                   (if bool_decide (path = []) then lit "/" else path)
                   (pr_params u) (pr_query u) (pr_fragment u))
      end
    end.

End Checks.

End Urllib.

(** ** A model of the member names of [zipfile]

    What [ZipFile.writestr(name, data)] of CPython 3.11 makes of [name],
    for an archive opened as the script opens it: [ZipInfo] cuts the
    name at its first NUL character and writes the path separator
    [os.sep] of the system as a slash; [writestr] reads the last
    character of the name, which raises [IndexError] for an empty name;
    the header holds the name in UTF-8, which raises
    [UnicodeEncodeError] for a surrogate, and its length in 16 bits,
    which raises [struct.error] for a name of more than 65535 bytes.
    An exception is given by the name of its class. *)
Module Zipfile.

(** The number of bytes of a code point in UTF-8; surrogates have no
    encoding. *)
Definition utf8_width (c : char) : option N :=
  if bool_decide (c < 128)%N then Some 1%N
  else if bool_decide (c < 2048)%N then Some 2%N
  else if bool_decide (55296 ≤ c ≤ 57343)%N then None
  else if bool_decide (c < 65536)%N then Some 3%N
  else Some 4%N.

(** [len(s.encode('utf-8'))], when [s] can be encoded. *)
Fixpoint utf8_length (s : pystr) : option N :=
  match s with
  | [] => Some 0%N
  | c :: s' =>
    match utf8_width c, utf8_length s' with
    | Some w, Some n => Some (w + n)%N
    | _, _ => None
    end
  end.

(** [filename[0:filename.find(chr(0))]] when there is a NUL. *)
Fixpoint cut_at_nul (s : pystr) : pystr :=
  match s with
  | [] => []
  | c :: s' => if bool_decide (c = 0%N) then [] else c :: cut_at_nul s'
  end.

(** [filename.replace(os.sep, '/')]. *)
Definition slashes (os_sep : char) (s : pystr) : pystr :=
  map (fun c => if bool_decide (c = os_sep) then 47%N else c) s.

Definition member_name (os_sep : char) (name : pystr) : exn + pystr :=
  let name := slashes os_sep (cut_at_nul name) in
  if bool_decide (name = []) then inl (lit "IndexError")
  else
    match utf8_length name with
    | None => inl (lit "UnicodeEncodeError")
    | Some n =>
      if bool_decide (65535 < n)%N then inl (lit "struct.error")
      else inr name
    end.

End Zipfile.

(** ** Notions used to state the properties *)

(** What [safe_filename] does to one character. *)
Definition sanitize_char (c : char) : char :=
  if bool_decide (c ∈ forbidden) then 95%N else c.


(** The outcome of the request of one row, the FetchResult of the
    design: the file name and the bytes, or the identifier with the
    exception text or the HTTP status. *)
Inductive FetchResult :=
| Fetched (name : pystr) (pdf : bytes)
| NotFetched (rid : cell) (detail : exn + Z).

Definition fetch_result (d : Descriptor) (r : exn + Response) : FetchResult :=
  match r with
  | inl e => NotFetched (rid d) (inl e)
  | inr r =>
    if is_pdf r then Fetched (filename d) (content r)
    else NotFetched (rid d) (inr (status_code r))
  end.

Definition fetched_name (r : FetchResult) : option pystr :=
  match r with
  | Fetched name _ => Some name
  | NotFetched _ _ => None
  end.

(** The line the loop shows for a row. *)
Definition log_entry (r : FetchResult) : ui_event :=
  match r with
  | Fetched name _ => st_success (Saved name)
  | NotFetched i (inl e) => st_error (Failed i e)
  | NotFetched i (inr status) => st_error (FailedStatus i status)
  end.

(** Everything the loop shows for a row. *)
Definition row_events (r : FetchResult) : list ui_event :=
  match r with
  | Fetched name pdf =>
    [ st_success (Saved name);
      st_download_button (DownloadFile name) (RawBytes pdf) name
        (lit "application/pdf") ]
  | NotFetched _ _ => [log_entry r]
  end.

Definition is_status_line (e : ui_event) : bool :=
  match e with
  | st_error _ | st_success _ => true
  | _ => false
  end.

Definition is_success_line (e : ui_event) : bool :=
  match e with
  | st_success _ => true
  | _ => false
  end.

(** The success lines among the output. *)
Definition success_lines (ui : list ui_event) : list ui_event :=
  filter (fun e => is_success_line e = true) ui.

(** The result log: the success and error lines among the output. *)
Definition result_log (ui : list ui_event) : list ui_event :=
  filter (fun e => is_status_line e = true) ui.

(** The fields of all rows, when every row has the four labels. *)
Definition descriptors (rs : list Series) : option (list Descriptor) :=
  mapM (fun row => match row_descriptor row with
                   | inr d => Some d
                   | inl _ => None
                   end) rs.

(** Every row of a data frame is indexed by the frame's columns. *)
Definition df_wf (df : DataFrame) : Prop :=
  Forall (fun row : Series => Forall (fun c => is_Some (row !! c)) (columns df))
         (rows df).


(** The upload of a run replaced by a given data frame. *)
Definition with_frame (i : Inputs) (df : DataFrame) : Inputs :=
  {| base_url := base_url i; username := username i; password := password i;
     login_pressed := login_pressed i; uploaded_csv := Some (inr df) |}.

(** A character of the authority of a URL on which [urlsplit] makes no
    check and which ends no component: printable ASCII other than the
    space, slash, question mark, hash and the square brackets. *)
Definition authority_char (c : char) : Prop :=
  (32 < c < 127)%N ∧ c ∉ [47; 63; 35; 91; 93]%N.

#[global] Instance authority_char_dec c : Decision (authority_char c).
Proof. unfold authority_char. apply _. Defined.

(** What may follow the authority: nothing, or a path, query or fragment. *)
Definition starts_component (rest : pystr) : Prop :=
  rest = [] ∨ ∃ c r, rest = c :: r ∧ c ∈ [47; 63; 35]%N.

(** The path of the report pages. *)
Definition report_path : pystr :=
  lit "/patrol/default/viewreportprintable/idreport/".

(** The path of the login form. *)
Definition login_path : pystr := lit "/form/secursignin/signin".

(** The login page came: a response with status 200. *)
Definition page_loaded (r : exn + Response) : Prop :=
  ∃ page, r = inr page ∧ status_code page = 200.

(** The download button of the archive. *)
Definition is_zip_button (e : ui_event) : Prop :=
  ∃ data name mime, e = st_download_button DownloadZip data name mime.

(** The download button of the archive with the members [zf]. *)
Definition zip_button (zf : list (pystr * bytes)) : ui_event :=
  st_download_button DownloadZip (ZipArchive zf) (lit "all_reports.zip")
    (lit "application/zip").

(** One for a run that ended in [zf.writestr], nought for another. *)
Definition ended_in_writestr (e : Exit) : nat :=
  match e with
  | WritestrError _ => 1
  | _ => 0
  end.

(** The jar after the replies [earlier], in their order. *)
Definition jar_after (earlier : list Reply) (jar : Jar) : Jar :=
  foldl (fun j x => foldl apply_update j (set_cookies x)) jar earlier.

Section Notions.
Context `{Platform}.

(** The first call of [perform_login], to the base URL as it was
    entered, and the reply to it. *)
Definition login_page_request (base_url : pystr) : Request :=
  {| req_method := GET;
     req_url := base_url;
     req_headers := default_headers;
     req_jar := ∅;
     req_data := [];
     req_allow_redirects := true;
     req_timeout := 15 |}.

Definition login_page_reply (base_url : pystr) (net : Net) : Reply :=
  (send (world net) (login_page_request base_url)).2.

(** The call of a row whose turn comes after the replies [earlier], in a
    loop entered with the session [session]. *)
Definition row_request (base : pystr) (d : Descriptor) (session : Session)
    (earlier : list Reply) : Request :=
  {| req_method := GET;
     req_url := base ++ py_str (rid d);
     req_headers := headers session;
     req_jar := jar_after earlier (cookies session);
     req_data := [];
     req_allow_redirects := true;
     req_timeout := 20 |}.

(** The second call of [perform_login]: the POST of the form to
    [login_url], with the token read from the page and the jar as the
    reply with the page left it. *)
Definition login_post_request (username password login_url : pystr)
    (csrf_token : option pystr) (page_reply : Reply) : Request :=
  {| req_method := POST;
     req_url := login_url;
     req_headers := default_headers;
     req_jar := jar_after [page_reply] ∅;
     req_data :=
       [ (lit "email", Some username);
         (lit "password", Some password);
         (lit "_csrf_token", csrf_token);
         (lit "locale", Some (lit "en_us"));
         (lit "submit", Some (lit "Login")) ];
     req_allow_redirects := true;
     req_timeout := 15 |}.

(** The reply to the call of a row. *)
Definition exchange (base : pystr) (d : Descriptor) (l : Loop) : Reply :=
  (send (world (l_net l)) (prepare GET (pdf_url base d) [] true 20 (l_session l))).2.

(** The exception that [zf.writestr] raises for a fetched row, if it
    raises, and the member it adds to the archive if not. *)
Definition write_error (r : FetchResult) : option exn :=
  match r with
  | Fetched name _ =>
    match zip_member_name name with
    | inl e => Some e
    | inr _ => None
    end
  | NotFetched _ _ => None
  end.

Definition archive_entry (r : FetchResult) : option (pystr * bytes) :=
  match r with
  | Fetched name pdf =>
    match zip_member_name name with
    | inl _ => None
    | inr member => Some (member, pdf)
    end
  | NotFetched _ _ => None
  end.

(** The line of the result log for a row: none where [zf.writestr]
    raised. *)
Definition log_line (r : FetchResult) : option ui_event :=
  match write_error r with
  | Some _ => None
  | None => Some (log_entry r)
  end.

(** The ID of the download button of a fetched row. *)
Definition row_button_id (name : pystr) (pdf : bytes) : pystr :=
  download_button_id (DownloadFile name) (RawBytes pdf) name
    (lit "application/pdf").

Definition result_button (r : FetchResult) : option pystr :=
  match r with
  | Fetched name pdf => Some (row_button_id name pdf)
  | NotFetched _ _ => None
  end.

(** The loop over rows whose fields have been read. *)
Fixpoint fetch_all (base : pystr) (ds : list Descriptor) (l : Loop) : Loop * Exit :=
  match ds with
  | [] => (l, Finished)
  | d :: ds' =>
    match fetch_descriptor base d l with
    | (l', Finished) => fetch_all base ds' l'
    | stop => stop
    end
  end.

(** The replies the loop gets, row by row, up to the row where it ends. *)
Fixpoint exchanges (base : pystr) (ds : list Descriptor) (l : Loop) : list Reply :=
  match ds with
  | [] => []
  | d :: ds' =>
    exchange base d l ::
    match fetch_descriptor base d l with
    | (l', Finished) => exchanges base ds' l'
    | _ => []
    end
  end.

(** The outcomes of the rows the loop gets to. *)
Definition fetch_results (base : pystr) (ds : list Descriptor) (l : Loop)
  : list FetchResult :=
  zip_with fetch_result ds (map result (exchanges base ds l)).

(** The IDs of the download buttons that the loop asks for. *)
Definition button_ids (base : pystr) (ds : list Descriptor) (l : Loop) : list pystr :=
  omap result_button (fetch_results base ds l).

(** The calls of a loop over the rows [ds] that got the replies
    [replies]: one for each reply, in row order. *)
Definition row_requests (base : pystr) (ds : list Descriptor) (session : Session)
    (replies : list Reply) : list Request :=
  imap (fun i d => row_request base d session (take i replies))
       (take (length replies) ds).

(** The login page and the login POST of [perform_login], as exchanges. *)
Definition login_page (base_url : pystr) (net : Net) :=
  session_get base_url 15 new_session net.

Definition login_post (username password login_url : pystr)
    (csrf_token : option pystr) (session : Session) (net : Net) :=
  session_post login_url
    (login_payload username password csrf_token) true 15 session net.

End Notions.

(** ** A scripted portal

    A platform for examples: the portal answers the calls it gets with a
    prepared list of replies, one after the other, and times out after
    the last; the parser knows two login pages; [urljoin] and the member
    names of the archive are those of the two models, on a system whose
    path separator is the slash. *)

Definition page_with_token : pystr := lit "<input name=_csrf_token value=tok>".
Definition page_without_value : pystr := lit "<input name=_csrf_token>".

Definition scripted_parser (t : pystr) : list Tag :=
  if bool_decide (t = page_with_token) then
    [ {| tag_name := lit "input";
         attrs := {[ lit "name" := lit "_csrf_token"; lit "value" := lit "tok" ]} |} ]
  else if bool_decide (t = page_without_value) then
    [ {| tag_name := lit "input";
         attrs := {[ lit "name" := lit "_csrf_token" ]} |} ]
  else [].

Definition scripted_send (w : list Reply) (_ : Request) : list Reply * Reply :=
  match w with
  | r :: w' => (w', r)
  | [] => ([], {| set_cookies := []; result := inl (lit "timed out") |})
  end.

(** The ID of a download button as recent versions of Streamlit compute
    it: from the label, the file name and the MIME type, not the data. *)
Definition scripted_button_id (label : message) (_ : Data) (file_name mime : pystr)
  : pystr :=
  match label with
  | DownloadFile name => lit "Download " ++ name
  | DownloadZip => lit "Download ZIP"
  | _ => []
  end ++ 0%N :: file_name ++ 0%N :: mime.

(** A check of the authority that never raises. *)
Definition no_check (_ : pystr) : option pystr := None.

Definition scripted : Platform :=
  {| World := list Reply;
     send := scripted_send;
     default_headers := ∅;
     html_parser := scripted_parser;
     str_lower := Urllib.lower_ascii;
     urljoin_parsed := Urllib.urljoin no_check no_check;
     zip_member_name := Zipfile.member_name 47;
     download_button_id := scripted_button_id |}.

(** Replies and rows for the examples. *)
Definition ok (status : Z) (body : string) : Reply :=
  {| set_cookies := [];
     result := inr {| status_code := status; content := blit body;
                      text := lit body |} |}.

Definition timed_out : Reply :=
  {| set_cookies := []; result := inl (lit "timed out") |}.

Definition report (i name account day : string) : Descriptor :=
  {| rid := Str (lit i); reportname := Str (lit name);
     account_name := Str (lit account); date := Str (lit day) |}.

Definition series (d : Descriptor) : Series :=
  {[ lit "id" := rid d; lit "reportname" := reportname d;
     lit "account.name" := account_name d; lit "date" := date d ]}.

Definition portal_url : pystr := lit "https://client.tracktik.com/".

Definition reports_url : pystr :=
  lit "https://client.tracktik.com/patrol/default/viewreportprintable/idreport/".

Definition night : Descriptor := report "17" "Patrol" "ACME" "2024-01-05".
Definition day : Descriptor := report "18" "Patrol" "ACME" "2024-01-05".
Definition dawn : Descriptor := report "19" "Patrol" "ACME" "2024-01-06".

(** A cookie of the portal, for all its paths, and a reply that sets it. *)
Definition portal_cookie (name : string) : CookieKey :=
  (lit "client.tracktik.com", lit "/", lit name).

Definition cookie (value : string) : Cookie :=
  {| ck_value := lit value; ck_attrs := [] |}.

Definition ok_with_cookie (status : Z) (body : string) (name value : string) : Reply :=
  {| set_cookies := [SetCookie (portal_cookie name) (cookie value)];
     result := result (ok status body) |}.

(** A sheet without the [date] column, and a run that uploads it. *)
Definition sheet_without_date : DataFrame :=
  {| columns := [lit "id"; lit "reportname"; lit "account.name"];
     rows := [ {[ lit "id" := Str (lit "17"); lit "reportname" := Str (lit "Patrol");
                  lit "account.name" := Str (lit "ACME") ]} ] |}.

Definition upload_run (df : DataFrame) : Inputs :=
  {| base_url := portal_url; username := lit "guard"; password := lit "secret";
     login_pressed := false; uploaded_csv := Some (inr df) |}.

Definition at_portal (w : list Reply) : @Net scripted :=
  {| world := (w : @World scripted); sent := [] |}.

Definition start_loop (w : list Reply) : @Loop scripted :=
  {| l_net := at_portal w; l_session := @new_session scripted;
     l_zf := []; l_ui := []; l_ids := [] |}.

Definition signed_in (w : list Reply) : @App scripted :=
  {| app_net := at_portal w; app_session := Some (@new_session scripted) |}.

(** A sheet with the four columns and one row for each report. *)
Definition sheet (ds : list Descriptor) : DataFrame :=
  {| columns := required_cols; rows := map series ds |}.

(** A run in which the Login button is pressed and nothing is uploaded. *)
Definition login_run (user : string) : Inputs :=
  {| base_url := portal_url; username := lit user; password := lit "secret";
     login_pressed := true; uploaded_csv := None |}.

(** A run in which the Login button is pressed and a sheet is uploaded. *)
Definition login_and_upload (df : DataFrame) : Inputs :=
  {| base_url := portal_url; username := lit "guard"; password := lit "secret";
     login_pressed := true; uploaded_csv := Some (inr df) |}.

(** A run that uploads a file the reader rejects. *)
Definition unreadable_upload : Inputs :=
  {| base_url := portal_url; username := lit "guard"; password := lit "secret";
     login_pressed := false;
     uploaded_csv := Some (inl (lit "No columns to parse from file")) |}.

Definition signed_out (w : list Reply) : @App scripted :=
  {| app_net := at_portal w; app_session := None |}.

(** The session after a login whose page set a cookie. *)
Definition fresh_session : Session :=
  {| headers := ∅; cookies := {[ portal_cookie "PHPSESSID" := cookie "fresh" ]} |}.

Definition login_page_ok : Response :=
  {| status_code := 200; content := blit "<input name=_csrf_token value=tok>";
     text := page_with_token |}.

Definition token_tag : Tag :=
  {| tag_name := lit "input";
     attrs := {[ lit "name" := lit "_csrf_token"; lit "value" := lit "tok" ]} |}.

(** A base URL whose authority opens a bracket and does not close it,
    and runs that use it. *)
Definition bracket_url : pystr := lit "http://[portal/".

Definition upload_run_at (base : pystr) (df : DataFrame) : Inputs :=
  {| base_url := base; username := lit "guard"; password := lit "secret";
     login_pressed := false; uploaded_csv := Some (inr df) |}.

Definition login_run_at (base : pystr) : Inputs :=
  {| base_url := base; username := lit "guard"; password := lit "secret";
     login_pressed := true; uploaded_csv := None |}.

(** A report whose name has 65536 characters. *)
Definition long_name : pystr := repeat 80%N (N.to_nat 65536).

Definition unwieldy : Descriptor :=
  {| rid := Str (lit "17"); reportname := Str long_name;
     account_name := Str (lit "ACME"); date := Str (lit "2024-01-05") |}.

(** The nine characters that [safe_filename] replaces, between letters. *)
Definition nine_between_letters : pystr :=
  [97; 92; 98; 47; 99; 42; 100; 63; 101; 58; 102; 34; 103; 60; 104; 62; 105;
   124; 106]%N.

(** ** [safe_filename] *)

Lemma re_sub_class_map cls r s :
  re_sub_class cls [r] s = map (fun c => if bool_decide (c ∈ cls) then r else c) s.
Proof.
  induction s as [|c s IH]; [done|].
  cbn. rewrite <- IH. unfold re_sub_class. by case_bool_decide.
Qed.

Lemma safe_filename_map s :
  safe_filename (Str s) = map sanitize_char s.
Proof. apply re_sub_class_map. Qed.

Lemma sanitize_char_clean c : sanitize_char c ∉ forbidden.
Proof.
  unfold sanitize_char. case_bool_decide; [|done].
  by apply (bool_decide_eq_false_1 (95%N ∈ forbidden)); vm_compute.
Qed.

(** C4. For every string [s], [safe_filename] yields a string that holds
    none of the nine characters backslash, slash, star, question mark,
    colon, double quote, less-than, greater-than and bar (the code
    points 92, 47, 42, 63, 58, 34, 60, 62 and 124), has the length of
    [s], holds at each position the underscore (95) where [s] holds one
    of the nine and the character of [s] otherwise, and is [s] itself
    when [s] has none of the nine. *)
Theorem safe_filename_spec (s : pystr) :
  let nine := [92; 47; 42; 63; 58; 34; 60; 62; 124]%N in
  Forall (fun c => c ∉ nine) (safe_filename (Str s))
  ∧ length (safe_filename (Str s)) = length s
  ∧ (∀ (i : nat) (c : char), s !! i = Some c →
       safe_filename (Str s) !! i
       = Some (if bool_decide (c ∈ nine) then 95%N else c))
  ∧ safe_filename (Str s)
    = map (fun c => if bool_decide (c ∈ nine) then 95%N else c) s
  ∧ (Forall (fun c => c ∉ nine) s → safe_filename (Str s) = s).
Proof.
  cbv zeta. change [92; 47; 42; 63; 58; 34; 60; 62; 124]%N with forbidden.
  rewrite safe_filename_map. split_and!.
  - apply Forall_forall. intros c Hc.
    apply list_elem_of_fmap in Hc as (c' & -> & _). apply sanitize_char_clean.
  - apply length_map.
  - intros i c Hi. rewrite list_lookup_fmap, Hi. done.
  - done.
  - intros Hs. induction Hs as [|c s Hc Hs IH]; [done|].
    cbn. rewrite IH. unfold sanitize_char. by rewrite bool_decide_eq_false_2.
Qed.

(** ** Strings *)

Lemma startswith_prefix {A} `{EqDecision A} (b p : list A) :
  startswith b p = true ↔ p `prefix_of` b.
Proof. apply bool_decide_eq_true. Qed.

(** [contains] finds exactly the contiguous occurrences. *)
Lemma contains_spec (needle hay : pystr) :
  contains needle hay = true ↔ ∃ a b, hay = a ++ needle ++ b.
Proof.
  induction hay as [|c hay IH]; cbn [contains].
  - rewrite orb_false_r, startswith_prefix. split.
    + intros [k ->]. by exists [], k.
    + intros (a & b & Hab). symmetry in Hab.
      apply app_eq_nil in Hab as [-> Hab]. apply app_eq_nil in Hab as [-> ->].
      by exists [].
  - rewrite orb_true_iff, startswith_prefix, IH. split.
    + intros [[k ->]|(a & b & ->)]; [by exists [], k | by exists (c :: a), b].
    + intros ([|c' a] & b & Hab).
      * left. exists b. done.
      * right. injection Hab as -> ->. by exists a, b.
Qed.

(** ** Cookie jars *)

Lemma jar_after_nil jar : jar_after [] jar = jar.
Proof. done. Qed.

Lemma jar_after_cons x earlier jar :
  jar_after (x :: earlier) jar
  = jar_after earlier (foldl apply_update jar (set_cookies x)).
Proof. done. Qed.

Lemma jar_after_concat earlier jar :
  jar_after earlier jar
  = foldl apply_update jar (concat (map set_cookies earlier)).
Proof.
  revert jar. induction earlier as [|x earlier IH]; intros jar; [done|].
  cbn [map concat]. by rewrite foldl_app, jar_after_cons, IH.
Qed.

Section Properties.
Context `{Platform}.

(** ** [urljoin] with an empty argument *)

Lemma urljoin_empty (base : pystr) : urljoin base [] = inr base.
Proof. unfold urljoin. by repeat case_bool_decide; subst. Qed.

(** ** One request *)

Lemma session_request_headers m u data a t (s : Session) (net : Net) :
  headers (session_request m u data a t s net).1.2 = headers s.
Proof. unfold session_request. by destruct (send _ _). Qed.

Lemma session_request_sent m u data a t (s : Session) (net : Net) :
  sent (session_request m u data a t s net).1.1
  = sent net ++ [prepare m u data a t s].
Proof. unfold session_request. by destruct (send _ _). Qed.

Lemma session_request_cookies m u data a t (s : Session) (net : Net) :
  cookies (session_request m u data a t s net).1.2
  = store_cookies
      (set_cookies (send (world net) (prepare m u data a t s)).2) (cookies s).
Proof. unfold session_request. by destruct (send _ _). Qed.

Lemma session_request_result m u data a t (s : Session) (net : Net) :
  (session_request m u data a t s net).2
  = result (send (world net) (prepare m u data a t s)).2.
Proof. unfold session_request. by destruct (send _ _). Qed.

(** ** One row *)

Lemma result_log_snoc ui (e : ui_event) :
  result_log (ui ++ [e]) = result_log ui ++ (if is_status_line e then [e] else []).
Proof.
  unfold result_log. rewrite filter_app. f_equal.
  destruct (is_status_line e) eqn:E.
  - by rewrite filter_cons_True, filter_nil.
  - rewrite filter_cons_False; [done|]. by rewrite E.
Qed.

(** The effect of the loop body on each part of the loop state, in terms
    of the reply to the row's request, and how the body ends. *)
Lemma fetch_descriptor_eq base d (l : Loop) :
  let x := exchange base d l in
  let r := fetch_result d (result x) in
  let l' := (fetch_descriptor base d l).1 in
  l_zf l' = l_zf l ++ option_list (archive_entry r)
  ∧ result_log (l_ui l') = result_log (l_ui l) ++ option_list (log_line r)
  ∧ headers (l_session l') = headers (l_session l)
  ∧ cookies (l_session l')
    = store_cookies (set_cookies x) (cookies (l_session l))
  ∧ sent (l_net l')
    = sent (l_net l) ++ [prepare GET (pdf_url base d) [] true 20 (l_session l)]
  ∧ match write_error r with
    | Some e =>
      (fetch_descriptor base d l).2 = WritestrError e
      ∧ l_ui l' = l_ui l ∧ l_ids l' = l_ids l
    | None =>
      match result_button r with
      | Some id =>
        if bool_decide (id ∈ l_ids l) then
          (fetch_descriptor base d l).2 = DuplicateWidgetID
          ∧ l_ui l' = l_ui l ++ [log_entry r] ∧ l_ids l' = l_ids l
        else
          (fetch_descriptor base d l).2 = Finished
          ∧ l_ui l' = l_ui l ++ row_events r ∧ l_ids l' = l_ids l ++ [id]
      | None =>
        (fetch_descriptor base d l).2 = Finished
        ∧ l_ui l' = l_ui l ++ row_events r ∧ l_ids l' = l_ids l
      end
    end.
Proof.
  cbv zeta.
  unfold fetch_descriptor, exchange, session_get, session_request, fetch_result,
    log_line.
  destruct (send _ _) as [w [cs [e|r]]];
    cbn -[result_log lit filename row_button_id].
  - by rewrite app_nil_r, result_log_snoc.
  - destruct (is_pdf r); cbn -[result_log lit filename row_button_id].
    + unfold writestr.
      destruct (zip_member_name (filename d)) as [e|member];
        cbn -[result_log lit filename row_button_id].
      * by rewrite !app_nil_r.
      * unfold download_button.
        change (download_button_id _ _ _ _)
          with (row_button_id (filename d) (content r)).
        case_bool_decide; cbn -[result_log lit filename row_button_id].
        -- by rewrite result_log_snoc.
        -- rewrite !result_log_snoc. cbn [is_status_line].
           by rewrite app_nil_r, <- app_assoc.
    + by rewrite app_nil_r, result_log_snoc.
Qed.

(** C1. A row whose request got a response with status 200 and a body
    that starts with the four bytes of [%PDF] is handed to the archive:
    where [zf.writestr] takes the file name, the bytes of the body are
    added to the archive as they are, under the member name that the
    archive makes of the file name, and the success line is shown, with
    the download button when its ID is new; where [zf.writestr] raises
    for the file name, the run ends with that exception, and the row is
    neither in the archive nor in the result log.  Every other
    response, and so a 200 response with another body, gets an error
    line with the row's identifier and the status, leaves the archive
    as it was, and lets the loop go on.  Only a 200 response with such
    a body is recorded as a success. *)
Theorem fetched_row_recorded base d (l : Loop) (r : Response) :
  result (exchange base d l) = inr r →
  let out := fetch_descriptor base d l in
  let l' := out.1 in
  let saved :=
    ∃ member,
      l_zf l' = l_zf l ++ [(member, content r)]
      ∧ result_log (l_ui l')
        = result_log (l_ui l) ++ [st_success (Saved (filename d))] in
  let failed :=
    l_zf l' = l_zf l
    ∧ result_log (l_ui l')
      = result_log (l_ui l) ++ [st_error (FailedStatus (rid d) (status_code r))] in
  let is_pdf_200 := status_code r = 200 ∧ blit "%PDF" `prefix_of` content r in
  length (blit "%PDF") = 4%nat
  ∧ (saved → is_pdf_200)
  ∧ (is_pdf_200 →
     match zip_member_name (filename d) with
     | inr member =>
       l_zf l' = l_zf l ++ [(member, content r)]
       ∧ result_log (l_ui l')
         = result_log (l_ui l) ++ [st_success (Saved (filename d))]
       ∧ (row_button_id (filename d) (content r) ∉ l_ids l →
          out.2 = Finished
          ∧ l_ui l' = l_ui l ++
              [ st_success (Saved (filename d));
                st_download_button (DownloadFile (filename d))
                  (RawBytes (content r)) (filename d) (lit "application/pdf") ])
     | inl e =>
       out.2 = WritestrError e
       ∧ l_zf l' = l_zf l
       ∧ l_ui l' = l_ui l
     end)
  ∧ (¬ is_pdf_200 → failed ∧ out.2 = Finished)
  ∧ (status_code r = 200 → ¬ blit "%PDF" `prefix_of` content r → failed).
Proof.
  intros Hr out l' saved failed is_pdf_200. subst out.
  destruct (fetch_descriptor_eq base d l) as (Hzf & Hlog & _ & _ & _ & Hend).
  rewrite Hr in Hzf, Hlog, Hend. cbn [fetch_result] in Hzf, Hlog, Hend.
  fold l' in Hzf, Hlog, Hend.
  assert (Htest : is_pdf r = true ↔ is_pdf_200).
  { unfold is_pdf, is_pdf_200.
    by rewrite andb_true_iff, bool_decide_eq_true, startswith_prefix. }
  assert (Hno : ¬ is_pdf_200 → failed ∧ (fetch_descriptor base d l).2 = Finished).
  { intros Hn. destruct (is_pdf r) eqn:E; [by destruct Hn; apply Htest|].
    cbn in Hzf, Hlog, Hend. rewrite app_nil_r in Hzf.
    destruct Hend as (Hfin & _). by repeat split. }
  split; [done|]. split; [|split; [|split; [done|]]].
  - intros (member & Hs & _). destruct (is_pdf r) eqn:E; [by apply Htest|].
    cbn in Hzf. rewrite app_nil_r in Hzf.
    rewrite Hzf in Hs. apply (f_equal length) in Hs.
    rewrite length_app in Hs. cbn in Hs. lia.
  - intros Hp. apply Htest in Hp. rewrite Hp in Hzf, Hlog, Hend.
    unfold log_line in Hlog.
    cbn [write_error archive_entry result_button log_entry row_events]
      in Hzf, Hlog, Hend.
    destruct (zip_member_name (filename d)) as [e|member].
    + cbn in Hzf. rewrite app_nil_r in Hzf. by destruct Hend as (-> & -> & _).
    + split; [done|]. split; [done|]. intros Hfresh.
      rewrite bool_decide_eq_false_2 in Hend by done.
      by destruct Hend as (-> & -> & _).
  - intros _ Hn. apply Hno. by intros [_ ?].
Qed.

(** ** The loop *)

Lemma fetch_all_cons base d ds (l : Loop) :
  fetch_all base (d :: ds) l
  = if bool_decide ((fetch_descriptor base d l).2 = Finished)
    then fetch_all base ds (fetch_descriptor base d l).1
    else fetch_descriptor base d l.
Proof. cbn. by destruct (fetch_descriptor base d l) as [l' []]. Qed.

Lemma exchanges_cons base d ds (l : Loop) :
  exchanges base (d :: ds) l
  = exchange base d l ::
    if bool_decide ((fetch_descriptor base d l).2 = Finished)
    then exchanges base ds (fetch_descriptor base d l).1 else [].
Proof. cbn. by destruct (fetch_descriptor base d l) as [l' []]. Qed.

Lemma fetch_results_cons base d ds (l : Loop) :
  fetch_results base (d :: ds) l
  = fetch_result d (result (exchange base d l))
    :: if bool_decide ((fetch_descriptor base d l).2 = Finished)
       then fetch_results base ds (fetch_descriptor base d l).1
       else [].
Proof.
  unfold fetch_results. cbn.
  destruct (fetch_descriptor base d l) as [l' []]; cbn; try done; by destruct ds.
Qed.

(** The rows are processed one after the other when each has its four
    fields. *)
Lemma fetch_rows_all base rs ds (l : Loop) :
  descriptors rs = Some ds →
  fetch_rows base rs l = fetch_all base ds l.
Proof.
  unfold descriptors. revert ds l.
  induction rs as [|row rs IH]; intros ds l Hds.
  - by injection Hds as <-.
  - cbn in Hds. cbn [fetch_rows].
    destruct (row_descriptor row) as [k|d]; [done|]. cbn in Hds.
    destruct (mapM _ rs) as [ds'|] eqn:E; [|done]. injection Hds as <-.
    cbn [fetch_all]. destruct (fetch_descriptor base d l) as [l' []]; try done.
    exact (IH ds' l' eq_refl).
Qed.

(** The loop state when the loop ends, however it ends, in terms of the
    replies it got. *)
Lemma fetch_all_eq base ds (l : Loop) :
  let rs := fetch_results base ds l in
  let l' := (fetch_all base ds l).1 in
  l_zf l' = l_zf l ++ omap archive_entry rs
  ∧ result_log (l_ui l') = result_log (l_ui l) ++ omap log_line rs
  ∧ map req_url (sent (l_net l'))
    = map req_url (sent (l_net l)) ++ map (pdf_url base) (take (length rs) ds)
  ∧ headers (l_session l') = headers (l_session l)
  ∧ cookies (l_session l')
    = store_cookies (concat (map set_cookies (exchanges base ds l)))
        (cookies (l_session l)).
Proof.
  revert l. induction ds as [|d ds IH]; intros l.
  - cbn. by rewrite !app_nil_r.
  - cbn zeta. rewrite fetch_results_cons, fetch_all_cons, exchanges_cons.
    destruct (fetch_descriptor_eq base d l) as (Hzf & Hlog & Hh & Hc & Hs & _).
    set (r := fetch_result d _) in *.
    destruct (IH (fetch_descriptor base d l).1) as (IHzf & IHlog & IHs & IHh & IHc).
    cbn zeta in *. case_bool_decide.
    + rewrite IHzf, IHlog, IHs, IHh, IHc, Hzf, Hlog, Hh, Hc, Hs.
      split; [|split; [|split; [|split; [done|]]]].
      * rewrite <- app_assoc. f_equal. cbn. by destruct (archive_entry r).
      * rewrite <- app_assoc. f_equal. cbn. by destruct (log_line r).
      * rewrite map_app, <- app_assoc. done.
      * cbn [map concat]. unfold store_cookies. by rewrite foldl_app.
    + rewrite Hzf, Hlog, Hh, Hc, Hs.
      split; [|split; [|split; [|split; [done|]]]].
      * f_equal; cbn; by destruct (archive_entry r).
      * f_equal; cbn; by destruct (log_line r).
      * by rewrite map_app.
      * cbn. by rewrite app_nil_r.
Qed.

(** Where [zf.writestr] never raises, every row has its line. *)
Lemma log_lines_all (rs : list FetchResult) :
  Forall (fun r => write_error r = None) rs →
  omap log_line rs = map log_entry rs.
Proof.
  induction 1 as [|r rs Hr _ IH]; [done|].
  cbn. unfold log_line at 1. by rewrite Hr, IH.
Qed.

(** With file names that the archive takes and fresh IDs for all its
    download buttons the loop gets to its end. *)
Lemma fetch_all_finished base ds (l : Loop) :
  Forall (fun r => write_error r = None) (fetch_results base ds l) →
  NoDup (l_ids l ++ button_ids base ds l) →
  let rs := fetch_results base ds l in
  (fetch_all base ds l).2 = Finished
  ∧ length rs = length ds
  ∧ l_ui (fetch_all base ds l).1 = l_ui l ++ concat (map row_events rs)
  ∧ l_ids (fetch_all base ds l).1 = l_ids l ++ button_ids base ds l.
Proof.
  unfold button_ids. revert l. induction ds as [|d ds IH]; intros l Hwrite Hfresh.
  - cbn. by rewrite !app_nil_r.
  - cbn zeta. rewrite fetch_results_cons, fetch_all_cons in *.
    destruct (fetch_descriptor_eq base d l) as (_ & _ & _ & _ & _ & Hend).
    set (r := fetch_result d _) in *.
    apply Forall_cons in Hwrite as [Hr Hwrite]. rewrite Hr in Hend.
    assert (Hgo : (fetch_descriptor base d l).2 = Finished
                  ∧ l_ui (fetch_descriptor base d l).1 = l_ui l ++ row_events r
                  ∧ l_ids (fetch_descriptor base d l).1
                    = l_ids l ++ option_list (result_button r)).
    { cbn [omap list_omap] in Hfresh.
      destruct (result_button r) as [id|] eqn:Eid.
      - rewrite bool_decide_eq_false_2 in Hend; [done|].
        apply NoDup_app in Hfresh as (_ & Hnew & _). intros Hin.
        apply (Hnew id Hin). by left.
      - cbn. by rewrite app_nil_r. }
    destruct Hgo as (Hfin & Hui & Hids).
    rewrite bool_decide_eq_true_2 in * by done.
    assert (Hfresh' : NoDup (l_ids (fetch_descriptor base d l).1
                             ++ omap result_button
                                  (fetch_results base ds (fetch_descriptor base d l).1))).
    { rewrite Hids, <- app_assoc. cbn [omap list_omap] in Hfresh.
      by destruct (result_button r). }
    destruct (IH _ Hwrite Hfresh') as (IHfin & IHlen & IHui & IHids).
    rewrite IHfin, IHui, IHids, Hui, Hids. cbn [length map concat omap list_omap].
    repeat split; [by rewrite IHlen|by rewrite <- app_assoc|].
    rewrite <- app_assoc. by destruct (result_button r).
Qed.

(** When buttons with different file names have different IDs, rows
    fetched under different file names get different buttons. *)
Lemma distinct_names_distinct_buttons (rs : list FetchResult) :
  (∀ n1 b1 n2 b2, row_button_id n1 b1 = row_button_id n2 b2 → n1 = n2) →
  NoDup (omap fetched_name rs) → NoDup (omap result_button rs).
Proof.
  intros Hinj. induction rs as [|r rs IH]; [done|].
  destruct r as [n b|i x]; cbn; [|done].
  rewrite !NoDup_cons. intros [Hn Hrs]. split; [|by apply IH].
  intros Hin. apply Hn.
  apply list_elem_of_omap in Hin as ([n' b'|i' x'] & Hin & Hid); [|done].
  cbn in Hid. injection Hid as Hid. apply Hinj in Hid as ->.
  apply list_elem_of_omap. by exists (Fetched n b').
Qed.

(** C2, as amended.  A failed row never stops the loop.  When every row
    has its four fields, the archive takes the file name of every
    fetched row and no two download buttons of the run get the same ID,
    the loop runs to its end with one request per row, in row order;
    the archive gains exactly the entries of the rows that succeeded,
    in that order, and the result log gains one line per row.  The line
    of a row that failed carries the row's identifier and, when there
    was a response, its status; when the request raised, it carries the
    exception text instead.  With three rows of which only the second
    fails, the archive gains two entries and the log three lines. *)
Theorem batch_continues base rs ds (l : Loop) :
  descriptors rs = Some ds →
  Forall (fun r => write_error r = None) (fetch_results base ds l) →
  NoDup (l_ids l ++ button_ids base ds l) →
  let l' := (fetch_rows base rs l).1 in
  let results := fetch_results base ds l in
  (fetch_rows base rs l).2 = Finished
  ∧ length results = length ds
  ∧ map req_url (sent (l_net l'))
    = map req_url (sent (l_net l)) ++ map (pdf_url base) ds
  ∧ l_zf l' = l_zf l ++ omap archive_entry results
  ∧ length (omap archive_entry results) = length (omap fetched_name results)
  ∧ result_log (l_ui l') = result_log (l_ui l) ++ map log_entry results
  ∧ (∀ (i : nat) d, ds !! i = Some d →
       ∃ x, exchanges base ds l !! i = Some x
         ∧ results !! i = Some (fetch_result d (result x))
         ∧ match result x with
           | inl e => log_entry (fetch_result d (result x))
                      = st_error (Failed (rid d) e)
           | inr r =>
             if bool_decide (status_code r = 200)
                && bool_decide (blit "%PDF" `prefix_of` content r)
             then log_entry (fetch_result d (result x))
                  = st_success (Saved (filename d))
             else log_entry (fetch_result d (result x))
                  = st_error (FailedStatus (rid d) (status_code r))
           end)
  ∧ (∀ n1 b1 i2 x2 n3 b3,
       results = [Fetched n1 b1; NotFetched i2 x2; Fetched n3 b3] →
       ∃ m1 m3,
         zip_member_name n1 = inr m1 ∧ zip_member_name n3 = inr m3
         ∧ l_zf l' = l_zf l ++ [(m1, b1); (m3, b3)]
         ∧ length (result_log (l_ui l')) = (length (result_log (l_ui l)) + 3)%nat).
Proof.
  intros Hds Hwrite Hfresh l' results. subst l'.
  rewrite (fetch_rows_all _ _ _ _ Hds).
  destruct (fetch_all_eq base ds l) as (Hzf & Hlog & Hs & _).
  destruct (fetch_all_finished base ds l Hwrite Hfresh) as (Hfin & Hlen & _).
  fold results in Hzf, Hlog, Hs, Hlen, Hwrite.
  rewrite (log_lines_all results Hwrite) in Hlog.
  rewrite Hlen, firstn_all in Hs.
  split; [done|]. split; [done|].
  split; [done|]. split; [done|]. split.
  { clear -Hwrite. induction Hwrite as [|r rs Hr _ IH]; [done|].
    destruct r as [n b|i x]; cbn in *; [|done].
    destruct (zip_member_name n); [done|]. cbn. by rewrite IH. }
  split; [done|]. split.
  - intros i d Hi.
    assert (Hx : ∃ x, exchanges base ds l !! i = Some x).
    { apply lookup_lt_is_Some.
      assert (length results
              = (length (exchanges base ds l) `min` length ds)%nat) as Hmin.
      { unfold results, fetch_results. rewrite length_zip_with, length_map. lia. }
      apply lookup_lt_Some in Hi. lia. }
    destruct Hx as [x Hx]. exists x. split; [done|]. split.
    + unfold results, fetch_results. rewrite lookup_zip_with, Hi. cbn.
      by rewrite list_lookup_fmap, Hx.
    + destruct (result x) as [e|r]; [done|]. cbn. unfold is_pdf, startswith.
      by destruct (_ && _).
  - intros n1 b1 i2 x2 n3 b3 Hres. rewrite Hzf, Hlog, Hres.
    rewrite Hres in Hwrite.
    apply Forall_cons in Hwrite as [H1 Hwrite].
    apply Forall_cons in Hwrite as [_ Hwrite].
    apply Forall_cons in Hwrite as [H3 _].
    cbn in H1, H3 |- *.
    destruct (zip_member_name n1) as [|m1]; [done|].
    destruct (zip_member_name n3) as [|m3]; [done|].
    exists m1, m3. split_and!; try done. by rewrite length_app.
Qed.

Lemma store_cookies_nil (cs : list (list CookieUpdate)) jar :
  Forall (fun c => c = []) cs → store_cookies (concat cs) jar = jar.
Proof. induction 1 as [|c cs -> _ IH]; [done|]. exact IH. Qed.

(** The headers of the session are the same after any run of the loop. *)
Lemma fetch_rows_headers base rs (l : Loop) :
  headers (l_session (fetch_rows base rs l).1) = headers (l_session l).
Proof.
  revert l. induction rs as [|row rs IH]; intros l; [done|].
  cbn [fetch_rows]. destruct (row_descriptor row) as [k|d]; [done|].
  destruct (fetch_descriptor_eq base d l) as (_ & _ & Hh & _).
  destruct (fetch_descriptor base d l) as [l' []]; cbn in *; try done.
  by rewrite IH.
Qed.

(** C9, as amended.  The loop never changes the headers of the session.
    Its only use of the session is [session.get], which stores in the
    session's jar the cookies that the replies set: after the loop the
    jar is the jar before with the cookies of the replies stored in row
    order.  When no reply sets a cookie, the session after the loop is
    the session before it. *)
Theorem fetch_session_frame base rs ds (l : Loop) :
  descriptors rs = Some ds →
  let l' := (fetch_rows base rs l).1 in
  headers (l_session l') = headers (l_session l)
  ∧ cookies (l_session l')
    = store_cookies (concat (map set_cookies (exchanges base ds l)))
        (cookies (l_session l))
  ∧ (Forall (fun x => set_cookies x = []) (exchanges base ds l) →
     l_session l' = l_session l).
Proof.
  intros Hds l'. subst l'. split; [apply fetch_rows_headers|].
  rewrite (fetch_rows_all _ _ _ _ Hds).
  destruct (fetch_all_eq base ds l) as (_ & _ & _ & Hh & Hc).
  split; [done|]. intros Hno.
  rewrite store_cookies_nil in Hc by by apply Forall_fmap.
  destruct (l_session (fetch_all base ds l).1), (l_session l). cbn in *. congruence.
Qed.

(** ** File names *)

Lemma filename_eq (d : Descriptor) :
  filename d
  = safe_filename (reportname d) ++ lit "_" ++
    safe_filename (account_name d) ++ lit "_" ++
    safe_filename (date d) ++ lit "_(" ++ py_str (rid d) ++ lit ").pdf".
Proof. unfold filename, fstring. cbn [concat]. by rewrite app_nil_r. Qed.


(** ** The column check *)

Lemma issubset_spec (s cols : list pystr) :
  issubset s cols = true ↔ ∀ c, c ∈ s → c ∈ cols.
Proof.
  unfold issubset. rewrite forallb_forall. split.
  - intros Hs c Hc. eapply bool_decide_eq_true_1, Hs. by apply list_elem_of_In.
  - intros Hs c Hc. apply bool_decide_eq_true_2, Hs. by apply list_elem_of_In.
Qed.

(** Rows of a well-formed frame that passed the column check have their
    four fields. *)
Lemma checked_rows_have_descriptors (df : DataFrame) :
  issubset required_cols (columns df) = true →
  df_wf df →
  ∃ ds, descriptors (rows df) = Some ds ∧ length ds = length (rows df).
Proof.
  rewrite issubset_spec. intros Hcols Hwf. unfold df_wf in Hwf.
  induction Hwf as [|row rs Hrow _ IH]; [by exists []|].
  destruct IH as (ds & Hds & Hlen). rewrite Forall_forall in Hrow.
  assert (Hget : ∀ c, c ∈ required_cols → ∃ v, getitem row c = inr v).
  { intros c Hc. destruct (Hrow c (Hcols c Hc)) as [v Hv].
    exists v. unfold getitem. by rewrite Hv. }
  destruct (Hget (lit "id")) as [v1 H1]; [by apply (bool_decide_unpack _)|].
  destruct (Hget (lit "reportname")) as [v2 H2]; [by apply (bool_decide_unpack _)|].
  destruct (Hget (lit "account.name")) as [v3 H3]; [by apply (bool_decide_unpack _)|].
  destruct (Hget (lit "date")) as [v4 H4]; [by apply (bool_decide_unpack _)|].
  eexists (_ :: ds). unfold descriptors in *. split; [|cbn; by rewrite Hlen].
  apply mapM_Some. apply mapM_Some in Hds. constructor; [|done].
  unfold row_descriptor. by rewrite H1, H2, H3, H4.
Qed.

(** A run of the script in terms of its two parts. *)
Lemma script_eq (i : Inputs) (a : App) :
  script i a
  = let part := login_section i a in
    match part.2 with
    | Finished =>
      let o := bulk_section i part.1.1 in
      {| out_app := out_app o;
         out_ui := [st_title AppTitle] ++ part.1.2 ++ [st_markdown Rule] ++ out_ui o;
         out_zip := out_zip o; out_exit := out_exit o |}
    | exit =>
      {| out_app := part.1.1; out_ui := [st_title AppTitle] ++ part.1.2;
         out_zip := None; out_exit := exit |}
    end.
Proof. unfold script. by destruct (login_section i a) as [[a' ui] []]. Qed.

(** C5. When the uploaded sheet lacks one of the columns [id],
    [reportname], [account.name], [date], the download part of the script
    issues no request and creates no archive; with a session present it
    shows the column error and stops.  The outcome depends on the
    columns of the sheet only, whatever its rows. *)
Theorem missing_columns_rejected (i : Inputs) (a : App) df c :
  uploaded_csv i = Some (inr df) →
  c ∈ required_cols → c ∉ columns df →
  let o := bulk_section i a in
  out_app o = a
  ∧ sent (app_net (out_app o)) = sent (app_net a)
  ∧ out_zip o = None
  ∧ Forall (fun e => ∃ m, e = st_error m) (out_ui o)
  ∧ (is_Some (app_session a) →
     out_ui o = [st_error CsvMustContainColumns] ∧ out_exit o = Stopped)
  ∧ (∀ rs', bulk_section
              (with_frame i {| columns := columns df; rows := rs' |}) a = o)
  ∧ out_zip (script i a) = None
  ∧ sent (app_net (out_app (script i a)))
    = sent (app_net (login_section i a).1.1).
Proof.
  intros Hup Hc Hmiss o.
  assert (Hsub : issubset required_cols (columns df) = false).
  { apply not_true_is_false. rewrite issubset_spec. intros Hall. by apply Hmiss, Hall. }
  assert (Hbulk : ∀ a', bulk_section i a' =
    match app_session a' with
    | Some _ => {| out_app := a'; out_ui := [st_error CsvMustContainColumns];
                   out_zip := None; out_exit := Stopped |}
    | None => {| out_app := a'; out_ui := [st_error PleaseLoginFirst];
                 out_zip := None; out_exit := Finished |}
    end).
  { intros a'. unfold bulk_section. rewrite Hup, Hsub. by destruct (app_session a'). }
  subst o. rewrite Hbulk.
  split; [by destruct (app_session a)|]. split; [by destruct (app_session a)|].
  split; [by destruct (app_session a)|]. split.
  { destruct (app_session a); repeat constructor; by eexists. }
  split; [by intros [s ->]|]. split.
  { intros rs'. unfold bulk_section, with_frame. cbn [uploaded_csv columns].
    rewrite Hsub.
    by destruct (app_session a). }
  rewrite script_eq. cbv zeta.
  destruct (login_section i a) as [[a' ui] exit]. cbn [fst snd].
  destruct exit; try done. rewrite Hbulk. by destruct (app_session a').
Qed.

(** ** Login *)

Lemma login_page_request_eq base_url :
  prepare GET base_url [] true 15 new_session = login_page_request base_url.
Proof. done. Qed.

(** [perform_login] in terms of its two exchanges. *)
Lemma perform_login_eq username password base_url (net : Net) :
  perform_login username password base_url net
  = let '(net1, s1, r) := login_page base_url net in
    match r with
    | inl e => (net1, inr (None, CouldNotLoadLoginPage e))
    | inr r =>
      if bool_decide (status_code r ≠ 200) then
        (net1, inr (None, CouldNotLoadLoginPageStatus (status_code r)))
      else
        match find (html_parser (text r)) (lit "input") (lit "name")
                (lit "_csrf_token") with
        | None => (net1, inr (None, CsrfTokenNotFound))
        | Some token_input =>
          match urljoin base_url (lit "/form/secursignin/signin") with
          | inl e => (net1, inl e)
          | inr login_url =>
            let '(net2, s2, resp) :=
              login_post username password login_url
                (attrs token_input !! lit "value") s1 net1 in
            match resp with
            | inl e => (net2, inr (None, LoginRequestFailed e))
            | inr resp =>
              if bool_decide (status_code resp = 200)
                 && contains (lit "logout") (str_lower (text resp))
              then (net2, inr (Some s2, LoginSuccessful))
              else if bool_decide (status_code resp ∈ [200; 302])
              then (net2, inr (Some s2, LoginSent))
              else (net2, inr (None, LoginFailed (status_code resp)))
            end
          end
        end
    end.
Proof. unfold perform_login. rewrite urljoin_empty. reflexivity. Qed.

(** C3. Once the login page was loaded, its token element found and the
    form posted to the sign-in URL, a response to the login POST is
    classified in three ways: status 200 with [logout] in the lowercased
    body gives the session and the success message; status 200 or 302
    without it gives the session and the other, check-the-cookies
    message, as does status 302 with it; any other status gives no
    session and the failure message with the status.  Nothing else is
    returned. *)
Theorem login_classification username password base_url (net : Net)
    (page : Response) (token_input : Tag) (login_url : pystr) (resp : Response) :
  let get := login_page base_url net in
  get.2 = inr page →
  status_code page = 200 →
  find (html_parser (text page)) (lit "input") (lit "name") (lit "_csrf_token")
  = Some token_input →
  urljoin base_url (lit "/form/secursignin/signin") = inr login_url →
  let post := login_post username password login_url
                (attrs token_input !! lit "value") get.1.2 get.1.1 in
  post.2 = inr resp →
  let out := (perform_login username password base_url net).2 in
  let has_logout := contains (lit "logout") (str_lower (text resp)) in
  (status_code resp = 200 ∧ has_logout = true →
   out = inr (Some post.1.2, LoginSuccessful))
  ∧ ((status_code resp = 200 ∨ status_code resp = 302) ∧ has_logout = false →
     out = inr (Some post.1.2, LoginSent))
  ∧ (status_code resp = 302 → out = inr (Some post.1.2, LoginSent))
  ∧ (status_code resp ≠ 200 ∧ status_code resp ≠ 302 →
     out = inr (None, LoginFailed (status_code resp)))
  ∧ (out = inr (Some post.1.2, LoginSuccessful)
     ∨ out = inr (Some post.1.2, LoginSent)
     ∨ out = inr (None, LoginFailed (status_code resp)))
  ∧ LoginSent ≠ LoginSuccessful
  ∧ (has_logout = true ↔ ∃ a b, str_lower (text resp) = a ++ lit "logout" ++ b).
Proof.
  intros get Hget Hpage Hfind Hurl post Hpost out has_logout.
  assert (Hout : out =
    if bool_decide (status_code resp = 200) && has_logout
    then inr (Some post.1.2, LoginSuccessful)
    else if bool_decide (status_code resp ∈ [200; 302])
    then inr (Some post.1.2, LoginSent)
    else inr (None, LoginFailed (status_code resp))).
  { subst out. rewrite perform_login_eq. fold get.
    destruct get as [[net1 s1] r] eqn:Eget. cbn in Hget. subst r.
    rewrite bool_decide_eq_false_2 by (intros Hn; by apply Hn).
    rewrite Hfind, Hurl. cbn [fst snd] in post. fold post.
    destruct post as [[net2 s2] r] eqn:Epost. cbn in Hpost. subst r.
    cbn [fst snd]. subst has_logout.
    destruct (_ && _); [done|]. by destruct (bool_decide _). }
  assert (H302 : status_code resp ∈ [200; 302]
                 ↔ status_code resp = 200 ∨ status_code resp = 302).
  { rewrite !elem_of_cons, elem_of_nil. tauto. }
  rewrite Hout. repeat split.
  - intros [? ->]. by rewrite bool_decide_eq_true_2.
  - intros [Hs ->]. rewrite andb_false_r.
    by rewrite bool_decide_eq_true_2 by by apply H302.
  - intros Hs. rewrite (bool_decide_eq_false_2 (status_code resp = 200)) by lia.
    cbn. by rewrite bool_decide_eq_true_2 by (apply H302; by right).
  - intros [H1 H2]. rewrite bool_decide_eq_false_2 by done. cbn.
    rewrite bool_decide_eq_false_2; [done|]. rewrite H302. tauto.
  - destruct (_ && _); [by left|]. case_bool_decide; [right; by left|right; by right].
  - done.
  - apply contains_spec.
  - apply contains_spec.
Qed.


(** ** The archive *)

(** The download part of the script when the sheet has the columns,
    [urljoin] gives the base of the report URLs and every row has its
    four fields, in terms of the loop. *)
Lemma bulk_section_eq (i : Inputs) (a : App) df session base ds :
  uploaded_csv i = Some (inr df) → app_session a = Some session →
  issubset required_cols (columns df) = true →
  report_base_url (base_url i) = inr base →
  descriptors (rows df) = Some ds →
  let out := fetch_all base ds (loop_start a session df) in
  let l := out.1 in
  let app := {| app_net := l_net l; app_session := Some (l_session l) |} in
  bulk_section i a
  = match out.2 with
    | Finished =>
      match download_button DownloadZip (ZipArchive (l_zf l))
              (lit "all_reports.zip") (lit "application/zip") (l_ids l) with
      | Some (_, button) =>
        {| out_app := app;
           out_ui := l_ui l ++ [st_markdown DownloadAllAsZip; button];
           out_zip := Some (l_zf l); out_exit := Finished |}
      | None =>
        {| out_app := app;
           out_ui := l_ui l ++ [st_markdown DownloadAllAsZip];
           out_zip := Some (l_zf l); out_exit := DuplicateWidgetID |}
      end
    | exit =>
      {| out_app := app; out_ui := l_ui l;
         out_zip := Some (l_zf l); out_exit := exit |}
    end.
Proof.
  intros Hup Hs Hcols Hbase Hds out l app. unfold bulk_section.
  rewrite Hup, Hs, Hcols, Hbase. cbn [negb].
  rewrite (fetch_rows_all _ _ _ _ Hds). fold out.
  destruct out as [l' e]. subst l app. by destruct e.
Qed.

(** C10.  The run on two rows with the same four fields whose requests
    both bring the same PDF: [zf.writestr] adds an entry for each, under
    the same name, but the download button of the second row has the
    parameters, so the ID, of the button of the first; the call raises,
    the run ends there, and the archive is neither closed nor offered
    for download. *)
Theorem duplicate_rows_stop_the_run (i : Inputs) (a : App) df session row d
    (base member : pystr) (r1 r2 : Response) :
  uploaded_csv i = Some (inr df) → app_session a = Some session →
  issubset required_cols (columns df) = true →
  rows df = [row; row] → row_descriptor row = inr d →
  report_base_url (base_url i) = inr base →
  zip_member_name (filename d) = inr member →
  let l0 := loop_start a session df in
  result (exchange base d l0) = inr r1 → is_pdf r1 = true →
  result (exchange base d (fetch_descriptor base d l0).1) = inr r2 →
  is_pdf r2 = true → content r2 = content r1 →
  let o := bulk_section i a in
  out_exit o = DuplicateWidgetID
  ∧ out_zip o = Some [(member, content r1); (member, content r1)]
  ∧ result_log (out_ui o)
    = [st_success (Saved (filename d)); st_success (Saved (filename d))]
  ∧ (∀ data name mime, st_download_button DownloadZip data name mime ∉ out_ui o).
Proof.
  intros Hup Hs Hcols Hrows Hrow Hbase Hmember l0 Hx1 Hpdf1 Hx2 Hpdf2 Hsame o.
  assert (Hds : descriptors (rows df) = Some [d; d]).
  { rewrite Hrows. unfold descriptors. cbn. rewrite Hrow. done. }
  subst o. rewrite (bulk_section_eq i a df session base [d; d] Hup Hs Hcols Hbase Hds).
  fold l0. cbn [fetch_all].
  destruct (fetch_descriptor_eq base d l0) as (Hzf1 & _ & _ & _ & _ & Hend1).
  rewrite Hx1 in Hzf1, Hend1. cbn [fetch_result] in Hzf1, Hend1.
  rewrite Hpdf1 in Hzf1, Hend1.
  cbn [write_error result_button archive_entry row_events log_entry]
    in Hzf1, Hend1.
  rewrite Hmember in Hzf1, Hend1. cbn [option_list] in Hzf1.
  rewrite bool_decide_eq_false_2 in Hend1 by (cbn; apply not_elem_of_nil).
  destruct Hend1 as (Hfin1 & Hui1 & Hids1).
  destruct (fetch_descriptor_eq base d (fetch_descriptor base d l0).1)
    as (Hzf2 & _ & _ & _ & _ & Hend2).
  rewrite Hx2 in Hzf2, Hend2. cbn [fetch_result] in Hzf2, Hend2.
  rewrite Hpdf2, Hsame in Hzf2, Hend2.
  cbn [write_error result_button archive_entry row_events log_entry]
    in Hzf2, Hend2.
  rewrite Hmember in Hzf2, Hend2. cbn [option_list] in Hzf2.
  rewrite bool_decide_eq_true_2 in Hend2
    by (rewrite Hids1; apply elem_of_app; right; by left).
  destruct Hend2 as (Hfin2 & Hui2 & Hids2).
  destruct (fetch_descriptor base d l0) as [l1 e1]. cbn [fst snd] in *. subst e1.
  destruct (fetch_descriptor base d l1) as [l2 e2]. cbn [fst snd] in *. subst e2.
  cbv beta iota. cbn [fst snd out_exit out_zip out_ui].
  rewrite Hzf2, Hzf1, Hui2, Hui1. subst l0. cbn [loop_start l_zf l_ui app].
  split; [done|]. split; [done|]. split; [by vm_compute|].
  intros data name mime Hin.
  repeat (rewrite elem_of_app in Hin || rewrite elem_of_cons in Hin
          || rewrite elem_of_nil in Hin).
  intuition congruence.
Qed.

(** ** [urljoin] on the base URLs of a portal *)

Lemma partition_at_app c (a b : pystr) :
  c ∉ a → Urllib.partition_at c (a ++ c :: b) = Some (a, b).
Proof.
  induction a as [|x a IH]; intros Hc; cbn.
  - by rewrite bool_decide_eq_true_2.
  - apply not_elem_of_cons in Hc as [Hx Hc].
    rewrite bool_decide_eq_false_2 by done. by rewrite IH.
Qed.

Lemma splitnetloc_app (n r : pystr) :
  Forall (fun c => c ∉ [47; 63; 35]%N) n → starts_component r →
  Urllib.splitnetloc (n ++ r) = (n, r).
Proof.
  intros Hn Hr. induction Hn as [|c n Hc _ IH]; cbn.
  - destruct Hr as [->|(c & r' & -> & Hc)]; [done|].
    cbn. by rewrite bool_decide_eq_true_2.
  - rewrite bool_decide_eq_false_2 by done. by rewrite IH.
Qed.

Lemma remove_unsafe_id (s : pystr) :
  Forall (fun c => c ∉ [9; 10; 13]%N) s → Urllib.remove_unsafe s = s.
Proof.
  induction 1 as [|c s Hc _ IH]; [done|].
  unfold Urllib.remove_unsafe in *. rewrite filter_cons_True by done.
  by rewrite IH.
Qed.

Lemma remove_unsafe_component (r : pystr) :
  starts_component r → starts_component (Urllib.remove_unsafe r).
Proof.
  intros [->|(c & r' & -> & Hc)]; [by left|]. right.
  exists c, (Urllib.remove_unsafe r'). split; [|done].
  unfold Urllib.remove_unsafe. rewrite filter_cons_True; [done|].
  rewrite !elem_of_cons, elem_of_nil in Hc. rewrite !elem_of_cons, elem_of_nil.
  intros [->|[->|[->|[]]]]; by destruct Hc as [?|[?|[?|[]]]].
Qed.

Lemma authority_char_safe (n : pystr) :
  Forall authority_char n →
  Forall (fun c => c ∉ [9; 10; 13]%N) n
  ∧ Forall (fun c => c ∉ [47; 63; 35]%N) n.
Proof.
  intros Hn. split; eapply Forall_impl; try exact Hn.
  - intros c [Hc _]. rewrite !elem_of_cons, elem_of_nil. lia.
  - intros c [_ Hc]. rewrite !elem_of_cons, elem_of_nil in *. tauto.
Qed.

(** [urlsplit] makes no further check on an authority of such
    characters: it has no bracket and it is ASCII. *)
Lemma authority_unchecked cb cn (n : pystr) :
  Forall authority_char n → Urllib.netloc_error cb cn n = None.
Proof.
  intros Hn. unfold Urllib.netloc_error.
  assert (H91 : 91%N ∉ n).
  { intros Hin. rewrite Forall_forall in Hn. destruct (Hn _ Hin) as [_ Hc].
    apply Hc. rewrite !elem_of_cons. tauto. }
  assert (H93 : 93%N ∉ n).
  { intros Hin. rewrite Forall_forall in Hn. destruct (Hn _ Hin) as [_ Hc].
    apply Hc. rewrite !elem_of_cons. tauto. }
  rewrite !(bool_decide_eq_false_2 (_ ∈ n)) by done. cbn.
  assert (Hascii : forallb Urllib.is_ascii n = true).
  { apply forallb_forall. intros c Hc. apply list_elem_of_In in Hc.
    rewrite Forall_forall in Hn. destruct (Hn _ Hc) as [Hr _].
    apply bool_decide_eq_true_2. lia. }
  by rewrite Hascii, andb_false_r.
Qed.

(** The scheme and the authority that [urlsplit] reads from a base URL. *)
Lemma urlsplit_base cb cn (scheme netloc rest : pystr) :
  scheme ∈ [lit "http"; lit "https"] →
  Forall authority_char netloc → starts_component rest →
  ∃ path query fragment,
    Urllib.urlsplit cb cn (scheme ++ lit "://" ++ netloc ++ rest) []
    = inr {| Urllib.sr_scheme := scheme; Urllib.sr_netloc := netloc;
             Urllib.sr_path := path; Urllib.sr_query := query;
             Urllib.sr_fragment := fragment |}.
Proof.
  intros Hs Hn Hr. pose proof (authority_unchecked cb cn netloc Hn) as Hcheck.
  apply authority_char_safe in Hn as [Hsafe Hdelim].
  apply remove_unsafe_component in Hr.
  unfold Urllib.urlsplit.
  assert (Hclean : Urllib.remove_unsafe
                     (Urllib.lstrip (scheme ++ lit "://" ++ netloc ++ rest))
                   = scheme ++ 58%N :: lit "//" ++ netloc
                     ++ Urllib.remove_unsafe rest).
  { assert (Hl : Urllib.lstrip (scheme ++ lit "://" ++ netloc ++ rest)
                 = scheme ++ lit "://" ++ netloc ++ rest).
    { rewrite !elem_of_cons, elem_of_nil in Hs. by destruct Hs as [->|[->|[]]]. }
    rewrite Hl. unfold Urllib.remove_unsafe. rewrite !filter_app.
    fold (Urllib.remove_unsafe netloc). rewrite (remove_unsafe_id netloc Hsafe).
    rewrite !elem_of_cons, elem_of_nil in Hs. by destruct Hs as [->|[->|[]]]. }
  rewrite Hclean.
  assert (Hscheme : ∀ u, Urllib.split_scheme (scheme ++ 58%N :: u) = Some (scheme, u)).
  { intros u. unfold Urllib.split_scheme. rewrite partition_at_app.
    - rewrite !elem_of_cons, elem_of_nil in Hs. by destruct Hs as [->|[->|[]]].
    - rewrite !elem_of_cons, elem_of_nil in Hs.
      destruct Hs as [->|[->|[]]]; by apply (bool_decide_unpack _). }
  rewrite Hscheme. change (lit "//") with [47%N; 47%N]. cbn [app].
  rewrite (splitnetloc_app _ _ Hdelim Hr), Hcheck.
  repeat case_match; by eexists _, _, _.
Qed.

Lemma urlparse_base cb cn (scheme netloc rest : pystr) :
  scheme ∈ [lit "http"; lit "https"] →
  Forall authority_char netloc → starts_component rest →
  ∃ path params query fragment,
    Urllib.urlparse cb cn (scheme ++ lit "://" ++ netloc ++ rest) []
    = inr {| Urllib.pr_scheme := scheme; Urllib.pr_netloc := netloc;
             Urllib.pr_path := path; Urllib.pr_params := params;
             Urllib.pr_query := query; Urllib.pr_fragment := fragment |}.
Proof.
  intros Hs Hn Hr.
  destruct (urlsplit_base cb cn scheme netloc rest Hs Hn Hr)
    as (p & q & f & Hsplit).
  unfold Urllib.urlparse. rewrite Hsplit.
  cbn [Urllib.sr_scheme Urllib.sr_netloc Urllib.sr_path Urllib.sr_query
       Urllib.sr_fragment].
  destruct (_ && _); [destruct (Urllib.splitparams p)|]; by eexists _, _, _, _.
Qed.

(** For a base URL made of the scheme [http] or [https], an authority
    and whatever follows it, [urljoin] with the report path or with the
    login path keeps the scheme and the authority and drops the rest. *)
Lemma urljoin_portal_path cb cn (scheme netloc rest path : pystr) :
  scheme ∈ [lit "http"; lit "https"] → netloc ≠ [] →
  Forall authority_char netloc → starts_component rest →
  path ∈ [report_path; login_path] →
  Urllib.urljoin cb cn (scheme ++ lit "://" ++ netloc ++ rest) path
  = inr (scheme ++ lit "://" ++ netloc ++ path).
Proof.
  intros Hs Hne Hn Hr Hpath.
  destruct (urlparse_base cb cn scheme netloc rest Hs Hn Hr)
    as (p & pa & q & f & Hparse).
  rewrite !elem_of_cons, elem_of_nil in Hs, Hpath.
  unfold Urllib.urljoin. rewrite Hparse.
  rewrite (bool_decide_eq_false_2 (_ ++ _ = []))
    by (by destruct Hs as [->|[->|[]]]).
  rewrite (bool_decide_eq_false_2 (path = []))
    by (by destruct Hpath as [->|[->|[]]]).
  cbn [Urllib.pr_scheme Urllib.pr_netloc Urllib.pr_path Urllib.pr_params
       Urllib.pr_query Urllib.pr_fragment].
  destruct netloc as [|c netloc]; [done|].
  destruct Hs as [->|[->|[]]], Hpath as [->|[->|[]]]; vm_compute; reflexivity.
Qed.

(** C8, as amended.  The URL of a row is [report_base_url] followed by
    the row's identifier, with nothing in between, for every base URL
    for which [urljoin] returns.  With [urljoin] as in [urllib.parse]:
    for a base URL that consists of the scheme [http] or [https] in
    lower case, a colon and two slashes, a non-empty authority of
    printable ASCII characters other than the space, slash, question
    mark, hash and the square brackets, and then nothing or a path,
    query or fragment, [report_base_url] is the scheme and the authority
    followed by the report path, whatever follows the authority in the
    base URL.  It is the base URL followed by the report path when such
    a base URL ends with its authority. *)
Theorem report_url_spec cb cn (scheme netloc rest : pystr) (d : Descriptor) :
  (∀ b u, urljoin b u = Urllib.urljoin cb cn b u) →
  scheme ∈ [lit "http"; lit "https"] → netloc ≠ [] →
  Forall authority_char netloc → starts_component rest →
  let base := scheme ++ lit "://" ++ netloc ++ rest in
  (∀ b rbu, report_base_url b = inr rbu → pdf_url rbu d = rbu ++ py_str (rid d))
  ∧ report_base_url base = Urllib.urljoin cb cn base report_path
  ∧ report_base_url base = inr (scheme ++ lit "://" ++ netloc ++ report_path)
  ∧ pdf_url (scheme ++ lit "://" ++ netloc ++ report_path) d
    = scheme ++ lit "://" ++ netloc ++ report_path ++ py_str (rid d)
  ∧ (rest = [] → report_base_url base = inr (base ++ report_path)).
Proof.
  intros Hjoin Hs Hne Hn Hr base.
  assert (Hbase : report_base_url base = Urllib.urljoin cb cn base report_path).
  { unfold report_base_url. by rewrite Hjoin. }
  assert (Hurl : ∀ rbu, pdf_url rbu d = rbu ++ py_str (rid d)).
  { intros rbu. unfold pdf_url, fstring. cbn [concat]. by rewrite app_nil_r. }
  split; [by intros b rbu _|]. split; [done|].
  rewrite Hbase. subst base.
  rewrite (urljoin_portal_path cb cn scheme netloc rest report_path)
    by (try done; apply list_elem_of_here).
  split; [done|]. split; [by rewrite Hurl, <- !app_assoc|].
  intros ->. by rewrite app_nil_r, <- !app_assoc.
Qed.

End Properties.

(** ** Further properties of the helpers *)

Lemma safe_filename_py_str (c : cell) :
  safe_filename c = map sanitize_char (py_str c).
Proof. apply re_sub_class_map. Qed.

Lemma sanitize_char_fixed (c : char) :
  c ∉ forbidden ↔ sanitize_char c = c.
Proof.
  unfold sanitize_char. case_bool_decide; [|done].
  split; [done|]. intros <-. by apply (bool_decide_unpack _).
Qed.

(** X1. [safe_filename] is idempotent, on strings and on missing cells,
    and the strings it leaves as they are are exactly those without a
    forbidden character. *)
Theorem safe_filename_idempotent (c : cell) :
  safe_filename (Str (safe_filename c)) = safe_filename c
  ∧ ∀ s, safe_filename (Str s) = s ↔ Forall (fun x => x ∉ forbidden) s.
Proof.
  split.
  - rewrite !safe_filename_py_str. cbn [py_str]. rewrite <- list_fmap_compose.
    apply list_fmap_ext. intros _ x _. cbn.
    apply sanitize_char_fixed, sanitize_char_clean.
  - intros s. rewrite safe_filename_py_str. cbn [py_str]. split.
    + intros Hs. rewrite <- Hs. apply Forall_fmap, Forall_true.
      intros x. apply sanitize_char_clean.
    + intros Hs. induction Hs as [|x s Hx _ IH]; [done|].
      cbn. rewrite IH. f_equal. by apply sanitize_char_fixed.
Qed.

Lemma safe_filename_clean (c : cell) (x : char) :
  x ∈ forbidden → x ∉ safe_filename c.
Proof.
  intros Hx Hin. rewrite safe_filename_py_str in Hin.
  apply list_elem_of_fmap in Hin as (y & -> & _).
  by apply (sanitize_char_clean y).
Qed.

(** X2. The identifier is put into the file name as it is: a forbidden
    character occurs in the file name of a row exactly when it occurs in
    the row's identifier. *)
Theorem filename_forbidden_from_id (d : Descriptor) (x : char) :
  x ∈ forbidden →
  x ∈ filename d ↔ x ∈ py_str (rid d).
Proof.
  intros Hx. rewrite filename_eq, !elem_of_app.
  assert (Hlit : ∀ s, Forall (fun y => y ∉ forbidden) s → x ∉ s).
  { intros s Hs Hin. rewrite Forall_forall in Hs. by apply (Hs x). }
  pose proof (safe_filename_clean (reportname d) x Hx).
  pose proof (safe_filename_clean (account_name d) x Hx).
  pose proof (safe_filename_clean (date d) x Hx).
  assert (x ∉ lit "_") by (apply Hlit, (bool_decide_unpack _); by vm_compute).
  assert (x ∉ lit "_(") by (apply Hlit, (bool_decide_unpack _); by vm_compute).
  assert (x ∉ lit ").pdf") by (apply Hlit, (bool_decide_unpack _); by vm_compute).
  tauto.
Qed.

Lemma last_mark_tail {A} (c : A) (l1 l2 s1 s2 : list A) :
  c ∉ s1 → c ∉ s2 → l1 ++ c :: s1 = l2 ++ c :: s2 → s1 = s2.
Proof.
  intros H1 H2. revert l2. induction l1 as [|x l1 IH]; intros [|y l2] Heq; cbn in Heq.
  - by injection Heq.
  - injection Heq as <- ->. exfalso. apply H1.
    apply elem_of_app. right. apply list_elem_of_here.
  - injection Heq as -> <-. exfalso. apply H2.
    apply elem_of_app. right. apply list_elem_of_here.
  - injection Heq as _ Heq. by apply (IH l2).
Qed.

(** X23. The identifier can be read back from the file name: two rows
    whose identifiers have no opening parenthesis and whose file names
    are the same have identifiers that read the same, whatever their
    report names, account names and dates.  So rows with different
    identifiers of this kind, as the numbers of the portal are, never
    share a file name. *)
Theorem filename_determines_id (d1 d2 : Descriptor) :
  40%N ∉ py_str (rid d1) → 40%N ∉ py_str (rid d2) →
  filename d1 = filename d2 →
  py_str (rid d1) = py_str (rid d2).
Proof.
  intros H1 H2 Heq.
  assert (Hshape : ∀ d, ∃ p,
             filename d = p ++ 40%N :: (py_str (rid d) ++ lit ").pdf")).
  { intros d.
    exists (safe_filename (reportname d) ++ lit "_" ++
            safe_filename (account_name d) ++ lit "_" ++
            safe_filename (date d) ++ [95%N]).
    rewrite filename_eq, <- !app_assoc. reflexivity. }
  assert (Htail : ∀ s : pystr, 40%N ∉ s → 40%N ∉ s ++ lit ").pdf").
  { intros s Hs [Hin|Hin]%elem_of_app; [done|].
    revert Hin. apply (bool_decide_unpack _). by vm_compute. }
  destruct (Hshape d1) as [p1 Hd1], (Hshape d2) as [p2 Hd2].
  rewrite Hd1, Hd2 in Heq.
  apply last_mark_tail in Heq; [|by apply Htail..].
  by apply app_inv_tail in Heq.
Qed.

Section LoginProperties.
Context `{Platform}.

(** ** The two requests of a login *)

Lemma login_page_eq base_url (net : Net) :
  login_page base_url net
  = ({| world := (send (world net) (login_page_request base_url)).1;
        sent := sent net ++ [login_page_request base_url] |},
     {| headers := default_headers;
        cookies := jar_after [login_page_reply base_url net] ∅ |},
     result (login_page_reply base_url net)).
Proof.
  unfold login_page, session_get, session_request, login_page_reply.
  rewrite login_page_request_eq. by destruct (send _ _).
Qed.

(** [perform_login], case by case: what it returns and what it has sent. *)
Lemma perform_login_cases username password base_url (net : Net) :
  let reply := login_page_reply base_url net in
  let out := perform_login username password base_url net in
  let only_get := sent out.1 = sent net ++ [login_page_request base_url] in
  match result reply with
  | inl e => out.2 = inr (None, CouldNotLoadLoginPage e) ∧ only_get
  | inr page =>
    if bool_decide (status_code page = 200) then
      match find (html_parser (text page)) (lit "input") (lit "name")
              (lit "_csrf_token") with
      | None => out.2 = inr (None, CsrfTokenNotFound) ∧ only_get
      | Some token_input =>
        match urljoin base_url (lit "/form/secursignin/signin") with
        | inl e => out.2 = inl e ∧ only_get
        | inr login_url =>
          let post := login_post username password login_url
                        (attrs token_input !! lit "value")
                        (login_page base_url net).1.2
                        (login_page base_url net).1.1 in
          sent out.1
          = sent net ++
              [ login_page_request base_url;
                login_post_request username password login_url
                  (attrs token_input !! lit "value") reply ]
          ∧ headers post.1.2 = default_headers
          ∧ out.2
            = match post.2 with
              | inl e => inr (None, LoginRequestFailed e)
              | inr resp =>
                if bool_decide (status_code resp = 200)
                   && contains (lit "logout") (str_lower (text resp))
                then inr (Some post.1.2, LoginSuccessful)
                else if bool_decide (status_code resp ∈ [200; 302])
                then inr (Some post.1.2, LoginSent)
                else inr (None, LoginFailed (status_code resp))
              end
        end
      end
    else out.2 = inr (None, CouldNotLoadLoginPageStatus (status_code page))
         ∧ only_get
  end.
Proof.
  cbv zeta. rewrite perform_login_eq, login_page_eq. cbn [fst snd].
  destruct (result (login_page_reply base_url net)) as [e|page]; [done|].
  destruct (decide (status_code page = 200)) as [H200|H200].
  - rewrite (bool_decide_eq_true_2 _ H200).
    rewrite bool_decide_eq_false_2 by (intros Hn; by apply Hn).
    destruct (find _ _ _ _) as [token_input|]; [|done].
    destruct (urljoin base_url _) as [e|login_url]; [done|].
    set (net1 := {| world := _; sent := _ |}).
    set (s1 := {| headers := _; cookies := _ |}).
    pose proof (session_request_sent POST login_url
                  (login_payload username password (attrs token_input !! lit "value"))
                  true 15 s1 net1) as Hsent.
    pose proof (session_request_headers POST login_url
                  (login_payload username password (attrs token_input !! lit "value"))
                  true 15 s1 net1) as Hhead.
    fold (session_post login_url
            (login_payload username password (attrs token_input !! lit "value"))
            true 15) in Hsent, Hhead.
    fold (login_post username password login_url
            (attrs token_input !! lit "value") s1 net1) in Hsent, Hhead.
    destruct (login_post _ _ _ _ s1 net1) as [[net2 s2] resp]. cbn [fst snd] in *.
    split_and!.
    + destruct resp as [e|resp];
        [|destruct (_ && _); [|destruct (bool_decide _)]];
        cbn [fst]; rewrite Hsent; subst net1; cbn [sent];
        by rewrite <- app_assoc.
    + exact Hhead.
    + destruct resp as [e|resp]; [done|].
      destruct (_ && _); [done|]. by destruct (bool_decide _).
  - rewrite (bool_decide_eq_false_2 _ H200).
    by rewrite bool_decide_eq_true_2.
Qed.

(** X3. When the login page does not come, because the request raises
    or the status is not 200, [perform_login] returns no session, with
    the exception text or the status in its message, and has sent the
    GET of the page and nothing else. *)
Theorem login_page_failure username password base_url (net : Net) :
  ¬ page_loaded (result (login_page_reply base_url net)) →
  let out := perform_login username password base_url net in
  out.2 = inr (None,
               match result (login_page_reply base_url net) with
               | inl e => CouldNotLoadLoginPage e
               | inr page => CouldNotLoadLoginPageStatus (status_code page)
               end)
  ∧ sent out.1 = sent net ++ [login_page_request base_url].
Proof.
  intros Hno out. subst out.
  pose proof (perform_login_cases username password base_url net) as Hc.
  cbv zeta in Hc.
  destruct (result (login_page_reply base_url net)) as [e|page].
  - destruct Hc as [-> ->]. done.
  - rewrite bool_decide_eq_false_2 in Hc.
    + destruct Hc as [-> ->]. done.
    + intros H200. apply Hno. by exists page.
Qed.

(** X4. When the login page came, has the token field and [urljoin]
    gives the sign-in URL, [perform_login] makes exactly two calls: the
    GET of the base URL, and then the POST of the form to the sign-in
    URL.  The POST carries the fields [email], [password],
    [_csrf_token], [locale] and [submit], with the user name, the
    password, the value of the token field ([None] without one),
    [en_us] and [Login]; it allows redirects, has a timeout of 15 and
    comes with the default headers and with the jar of the session as
    the reply with the page left it.  It is made whatever the token's
    value is and whatever comes back. *)
Theorem login_post_follows_page username password base_url (net : Net)
    (page : Response) (token_input : Tag) (login_url : pystr) :
  result (login_page_reply base_url net) = inr page →
  status_code page = 200 →
  find (html_parser (text page)) (lit "input") (lit "name") (lit "_csrf_token")
  = Some token_input →
  urljoin base_url (lit "/form/secursignin/signin") = inr login_url →
  sent (perform_login username password base_url net).1
  = sent net ++
      [ {| req_method := GET;
           req_url := base_url;
           req_headers := default_headers;
           req_jar := ∅;
           req_data := [];
           req_allow_redirects := true;
           req_timeout := 15 |};
        {| req_method := POST;
           req_url := login_url;
           req_headers := default_headers;
           req_jar := jar_after [login_page_reply base_url net] ∅;
           req_data :=
             [ (lit "email", Some username);
               (lit "password", Some password);
               (lit "_csrf_token", attrs token_input !! lit "value");
               (lit "locale", Some (lit "en_us"));
               (lit "submit", Some (lit "Login")) ];
           req_allow_redirects := true;
           req_timeout := 15 |} ].
Proof.
  intros Hpage H200 Hfind Hurl.
  pose proof (perform_login_cases username password base_url net) as Hc.
  cbv zeta in Hc. rewrite Hpage, (bool_decide_eq_true_2 _ H200), Hfind, Hurl in Hc.
  by destruct Hc as [-> _].
Qed.

(** X5. When the POST of the form raises, [perform_login] returns no
    session and the message with the exception text. *)
Theorem login_post_failure username password base_url (net : Net)
    (page : Response) (token_input : Tag) (login_url : pystr) (e : pystr) :
  result (login_page_reply base_url net) = inr page →
  status_code page = 200 →
  find (html_parser (text page)) (lit "input") (lit "name") (lit "_csrf_token")
  = Some token_input →
  urljoin base_url (lit "/form/secursignin/signin") = inr login_url →
  (login_post username password login_url (attrs token_input !! lit "value")
     (login_page base_url net).1.2 (login_page base_url net).1.1).2 = inl e →
  (perform_login username password base_url net).2
  = inr (None, LoginRequestFailed e).
Proof.
  intros Hpage H200 Hfind Hurl Hpost.
  pose proof (perform_login_cases username password base_url net) as Hc.
  cbv zeta in Hc. rewrite Hpage, (bool_decide_eq_true_2 _ H200), Hfind, Hurl in Hc.
  destruct Hc as (_ & _ & ->). by rewrite Hpost.
Qed.

(** X6. A session is returned only after both requests: the login page
    came with status 200 and the token field, [urljoin] gave the sign-in
    URL, and the POST was answered with status 200 or 302.  The session
    is the one that made the two requests; its headers are the default
    ones. *)
Theorem session_only_after_post username password base_url (net : Net)
    (session : Session) (msg : message) :
  (perform_login username password base_url net).2 = inr (Some session, msg) →
  ∃ page token_input login_url resp,
    result (login_page_reply base_url net) = inr page
    ∧ status_code page = 200
    ∧ find (html_parser (text page)) (lit "input") (lit "name")
        (lit "_csrf_token") = Some token_input
    ∧ urljoin base_url (lit "/form/secursignin/signin") = inr login_url
    ∧ let post := login_post username password login_url
                    (attrs token_input !! lit "value")
                    (login_page base_url net).1.2 (login_page base_url net).1.1 in
      post.2 = inr resp
      ∧ (status_code resp = 200 ∨ status_code resp = 302)
      ∧ (msg = LoginSuccessful ∨ msg = LoginSent)
      ∧ session = post.1.2
      ∧ headers session = default_headers
      ∧ length (sent (perform_login username password base_url net).1)
        = (length (sent net) + 2)%nat.
Proof.
  intros Hs.
  pose proof (perform_login_cases username password base_url net) as Hc.
  cbv zeta in Hc.
  destruct (result (login_page_reply base_url net)) as [e|page];
    [destruct Hc as [Hout _]; by rewrite Hout in Hs|].
  case_bool_decide as H200;
    [|destruct Hc as [Hout _]; by rewrite Hout in Hs].
  destruct (find _ _ _ _) as [token_input|] eqn:Hfind;
    [|destruct Hc as [Hout _]; by rewrite Hout in Hs].
  destruct (urljoin base_url _) as [e|login_url] eqn:Hurl;
    [destruct Hc as [Hout _]; by rewrite Hout in Hs|].
  destruct Hc as (Hsent & Hhead & Hout). rewrite Hout in Hs.
  exists page, token_input, login_url.
  destruct (login_post _ _ _ _ _ _).2 as [e|resp] eqn:Hpost; [done|].
  exists resp. split; [done|]. split; [done|]. split; [done|]. split; [done|].
  cbv zeta. rewrite Hpost, Hsent, length_app. cbn [length].
  destruct (_ && _) eqn:Hfull.
  - apply andb_true_iff in Hfull as [H1 _]. apply bool_decide_eq_true in H1.
    injection Hs as <- <-. split_and!; try done; by left.
  - case_bool_decide as H2; [|done].
    injection Hs as <- <-.
    rewrite !elem_of_cons, elem_of_nil in H2.
    split_and!; try done; [tauto|by right].
Qed.

(** X7. A call of [perform_login] sends the GET of the login page and
    after it at most one more request, a POST to the sign-in URL; when
    it returns a session the POST was sent. *)
Theorem login_sends_at_most_two username password base_url (net : Net) :
  let out := perform_login username password base_url net in
  ∃ rest,
    sent out.1 = sent net ++ login_page_request base_url :: rest
    ∧ (rest = []
       ∨ ∃ q, rest = [q] ∧ req_method q = POST
            ∧ urljoin base_url (lit "/form/secursignin/signin")
              = inr (req_url q))
    ∧ ((∃ s msg, out.2 = inr (Some s, msg)) → rest ≠ []).
Proof.
  cbv zeta.
  pose proof (perform_login_cases username password base_url net) as Hc.
  cbv zeta in Hc.
  assert (Hone :
    (∀ s msg, (perform_login username password base_url net).2
              ≠ inr (Some s, msg))
    ∧ sent (perform_login username password base_url net).1
      = sent net ++ [login_page_request base_url] →
    ∃ rest,
      sent (perform_login username password base_url net).1
      = sent net ++ login_page_request base_url :: rest
      ∧ (rest = []
         ∨ ∃ q, rest = [q] ∧ req_method q = POST
              ∧ urljoin base_url (lit "/form/secursignin/signin")
                = inr (req_url q))
      ∧ ((∃ s msg, (perform_login username password base_url net).2
                   = inr (Some s, msg)) → rest ≠ [])).
  { intros [Hout Hsent]. exists []. split; [done|].
    split; [by left|]. intros (s & msg & Hs). by destruct (Hout s msg). }
  destruct (result (login_page_reply base_url net)) as [e|page];
    [apply Hone; destruct Hc as [-> ?]; by split|].
  case_bool_decide; [|apply Hone; destruct Hc as [-> ?]; by split].
  destruct (find _ _ _ _) as [token_input|];
    [|apply Hone; destruct Hc as [-> ?]; by split].
  destruct (urljoin base_url _) as [e|login_url] eqn:Hurl;
    [apply Hone; destruct Hc as [-> ?]; by split|].
  destruct Hc as (Hsent & _). eexists [_]. split; [exact Hsent|].
  split; [|done]. right. by eexists.
Qed.

(** X25. A base URL for which [urljoin] raises when the sign-in URL is
    made: [perform_login] raises that [ValueError] after the GET of the
    login page, when the page came with status 200 and has the token
    field, and only then; it has sent the GET and no POST. *)
Theorem login_url_error username password base_url (net : Net) (e : pystr) :
  (perform_login username password base_url net).2 = inl e
  ↔ urljoin base_url (lit "/form/secursignin/signin") = inl e
    ∧ ∃ page token_input,
        result (login_page_reply base_url net) = inr page
        ∧ status_code page = 200
        ∧ find (html_parser (text page)) (lit "input") (lit "name")
            (lit "_csrf_token") = Some token_input
        ∧ sent (perform_login username password base_url net).1
          = sent net ++ [login_page_request base_url].
Proof.
  pose proof (perform_login_cases username password base_url net) as Hc.
  cbv zeta in Hc.
  destruct (result (login_page_reply base_url net)) as [e'|page].
  { destruct Hc as [-> _]. split; [done|]. by intros (_ & ? & ? & ? & _). }
  case_bool_decide as H200.
  2:{ destruct Hc as [-> _]. split; [done|].
      intros (_ & ? & ? & [= <-] & ? & _). done. }
  destruct (find _ _ _ _) as [token_input|] eqn:Hfind.
  2:{ destruct Hc as [-> _]. split; [done|].
      intros (_ & ? & ? & [= <-] & _ & Hf & _). by rewrite Hfind in Hf. }
  destruct (urljoin base_url _) as [e'|login_url] eqn:Hurl.
  - destruct Hc as [-> Hsent]. split.
    + intros [= ->]. split; [done|]. by exists page, token_input.
    + by intros [[= ->] _].
  - destruct Hc as (_ & _ & ->). split; [|by intros [? _]].
    destruct (login_post _ _ _ _ _ _).2 as [?|resp]; [done|].
    destruct (_ && _); [done|]. by destruct (bool_decide _).
Qed.

End LoginProperties.

Section ScriptProperties.
Context `{Platform}.

(** ** The Login button *)

(** X8. Unless the button is pressed and the three fields are filled,
    the login part sends nothing and leaves the state as it is; with the
    button pressed and a field empty it shows the fill-all-fields
    error. *)
Theorem login_needs_all_fields (i : Inputs) (a : App) :
  login_pressed i = false ∨ base_url i = [] ∨ username i = [] ∨ password i = [] →
  login_section i a
  = (a, if login_pressed i then [st_error PleaseFillAllFields] else [], Finished).
Proof.
  intros Hno. unfold login_section. destruct (login_pressed i); [|done].
  destruct Hno as [?|[Hb|[Hu|Hp]]]; [done|..].
  - by rewrite (bool_decide_eq_true_2 _ Hb).
  - by rewrite (bool_decide_eq_true_2 _ Hu), orb_true_r.
  - by rewrite (bool_decide_eq_true_2 _ Hp), orb_true_r.
Qed.

Lemma login_section_pressed (i : Inputs) (a : App) :
  login_pressed i = true → base_url i ≠ [] → username i ≠ [] → password i ≠ [] →
  let out := perform_login (username i) (password i) (base_url i) (app_net a) in
  login_section i a
  = match out.2 with
    | inl e =>
      ({| app_net := out.1; app_session := app_session a |}, [], ValueError e)
    | inr (Some s, msg) =>
      ({| app_net := out.1; app_session := Some s |}, [st_success msg], Finished)
    | inr (None, msg) =>
      ({| app_net := out.1; app_session := app_session a |}, [st_error msg],
       Finished)
    end.
Proof.
  intros Hp Hb Hu Hw. unfold login_section. rewrite Hp.
  rewrite !bool_decide_eq_false_2 by done. cbn [orb].
  by destruct (perform_login _ _ _ _) as [net [e|[[s|] msg]]].
Qed.

(** The login part leaves the session alone unless it is pressed with
    the three fields filled. *)
Lemma login_section_idle (i : Inputs) (a : App) :
  ¬ (login_pressed i = true ∧ base_url i ≠ [] ∧ username i ≠ []
     ∧ password i ≠ []) →
  (login_section i a).1.1 = a ∧ (login_section i a).2 = Finished.
Proof.
  intros Hno. unfold login_section.
  destruct (login_pressed i); [|done].
  destruct (_ || _) eqn:Hempty; [done|].
  apply orb_false_iff in Hempty as [Hempty Hw].
  apply orb_false_iff in Hempty as [Hb Hu].
  apply bool_decide_eq_false in Hb, Hu, Hw. by destruct Hno.
Qed.

(** X9. A login that gives no session does not sign out: when
    [perform_login] returns a failure, the session kept from an earlier
    login stays as it is, the message is shown as an error, and the
    network is as the attempt left it; when [perform_login] raises, the
    session stays as well and the run ends there. *)
Theorem failed_login_keeps_session (i : Inputs) (a : App) :
  login_pressed i = true → base_url i ≠ [] → username i ≠ [] → password i ≠ [] →
  let out := perform_login (username i) (password i) (base_url i) (app_net a) in
  (∀ s msg, out.2 ≠ inr (Some s, msg)) →
  login_section i a
  = ({| app_net := out.1; app_session := app_session a |},
     match out.2 with
     | inr (_, msg) => [st_error msg]
     | inl _ => []
     end,
     match out.2 with
     | inr _ => Finished
     | inl e => ValueError e
     end).
Proof.
  intros Hp Hb Hu Hw out Hnone. subst out.
  rewrite (login_section_pressed i a Hp Hb Hu Hw). cbv zeta.
  destruct (perform_login _ _ _ _).2 as [e|[[s|] msg]]; try done.
  by destruct (Hnone s msg).
Qed.

(** ** The download part *)

Lemma fetch_descriptor_exit base d (l : Loop) :
  (fetch_descriptor base d l).2 = Finished
  ∨ (fetch_descriptor base d l).2 = DuplicateWidgetID
  ∨ ∃ e, (fetch_descriptor base d l).2 = WritestrError e.
Proof.
  destruct (fetch_descriptor_eq base d l) as (_ & _ & _ & _ & _ & Hend).
  destruct (write_error _) as [e|]; [destruct Hend as [-> _]; eauto|].
  destruct (result_button _); [case_bool_decide|]; destruct Hend as [-> _]; auto.
Qed.

Lemma fetch_all_exit base ds (l : Loop) :
  (fetch_all base ds l).2 = Finished
  ∨ (fetch_all base ds l).2 = DuplicateWidgetID
  ∨ ∃ e, (fetch_all base ds l).2 = WritestrError e.
Proof.
  revert l. induction ds as [|d ds IH]; intros l; [by left|].
  rewrite fetch_all_cons. case_bool_decide as Hfin; [apply IH|].
  apply fetch_descriptor_exit.
Qed.

(** The download part neither stores a session nor removes one. *)
Lemma bulk_section_session (i : Inputs) (a : App) :
  is_Some (app_session (out_app (bulk_section i a))) ↔ is_Some (app_session a).
Proof.
  unfold bulk_section.
  destruct (uploaded_csv i) as [[e|df]|], (app_session a) as [s|] eqn:Hs;
    cbn; rewrite ?Hs; try done.
  destruct (negb _); cbn; rewrite ?Hs; [done|].
  destruct (report_base_url _) as [e|base]; cbn; rewrite ?Hs; [done|].
  destruct (fetch_rows _ _ _) as [l []]; cbn; try done.
  by destruct (download_button _ _ _ _ _) as [[? ?]|].
Qed.

(** X10. The download part sends a request only when the user is signed
    in, the sheet was read, it has the four columns, [urljoin] gave the
    base of the report URLs and the sheet has at least one row; it
    creates an archive only under the first four of these. *)
Theorem download_part_sends_only_when_ready (i : Inputs) (a : App) :
  let o := bulk_section i a in
  is_Some (out_zip o) ∨ sent (app_net (out_app o)) ≠ sent (app_net a) →
  ∃ session df base,
    app_session a = Some session
    ∧ uploaded_csv i = Some (inr df)
    ∧ issubset required_cols (columns df) = true
    ∧ report_base_url (base_url i) = inr base
    ∧ (sent (app_net (out_app o)) ≠ sent (app_net a) → rows df ≠ []).
Proof.
  cbv zeta. unfold bulk_section.
  assert (Hidle : ∀ ui e,
    let o := {| out_app := a; out_ui := ui; out_zip := None; out_exit := e |} in
    is_Some (out_zip o) ∨ sent (app_net (out_app o)) ≠ sent (app_net a) → False).
  { intros ui e o [[? ?]|?]; done. }
  destruct (uploaded_csv i) as [[e|df]|], (app_session a) as [s|] eqn:Hs;
    try (intros Hgo; by apply Hidle in Hgo).
  destruct (issubset required_cols (columns df)) eqn:Hcols; cbn [negb];
    [|intros Hgo; by apply Hidle in Hgo].
  destruct (report_base_url _) as [e|base];
    [intros Hgo; by apply Hidle in Hgo|].
  intros _. exists s, df, base. split; [done|]. split; [done|]. split; [done|].
  split; [done|].
  intros Hsent Hrows. apply Hsent. rewrite Hrows. cbn [fetch_rows].
  by destruct (download_button _ _ _ _ _) as [[? ?]|].
Qed.

(** X11. A sheet with the four columns and no rows: no request is sent;
    where [urljoin] gives the base of the report URLs, the run gets to
    its end and the ZIP offered for download is the empty archive;
    where [urljoin] raises, the run ends with that [ValueError] after
    the sheet was shown, and there is no archive. *)
Theorem empty_sheet_empty_archive (i : Inputs) (a : App) df session :
  uploaded_csv i = Some (inr df) → app_session a = Some session →
  issubset required_cols (columns df) = true →
  rows df = [] →
  let o := bulk_section i a in
  out_app o = a
  ∧ match report_base_url (base_url i) with
    | inr _ =>
      out_zip o = Some []
      ∧ out_exit o = Finished
      ∧ out_ui o
        = [ st_write LoadedCsv; st_dataframe df; st_markdown DownloadingPdfs;
            st_markdown DownloadAllAsZip;
            st_download_button DownloadZip (ZipArchive [])
              (lit "all_reports.zip") (lit "application/zip") ]
    | inl e =>
      out_zip o = None
      ∧ out_exit o = ValueError e
      ∧ out_ui o = [st_write LoadedCsv; st_dataframe df]
    end.
Proof.
  intros Hup Hs Hcols Hrows. cbv zeta. unfold bulk_section.
  rewrite Hup, Hs, Hcols, Hrows. cbn [negb].
  destruct (report_base_url _) as [e|base]; [done|].
  cbn. destruct a. cbn in Hs. by rewrite Hs.
Qed.

(** X12. The column check makes the reads of the loop safe: for a data
    frame whose rows are indexed by its columns, as pandas makes them,
    no run of the script ends with a [KeyError]. *)
Theorem checked_sheet_no_key_error (i : Inputs) (a : App) :
  (∀ df, uploaded_csv i = Some (inr df) → df_wf df) →
  ∀ key, out_exit (script i a) ≠ KeyError key.
Proof.
  intros Hwf key. rewrite script_eq. cbv zeta.
  assert (Hlogin : ∀ k, (login_section i a).2 ≠ KeyError k).
  { intros k. unfold login_section. destruct (login_pressed i); [|done].
    destruct (_ || _); [done|].
    by destruct (perform_login _ _ _ _) as [net [e|[[s|] msg]]]. }
  specialize (Hlogin key).
  destruct (login_section i a) as [[a' ui] exit]. cbn [fst snd] in *.
  destruct exit; try done. cbn [out_exit].
  unfold bulk_section.
  destruct (uploaded_csv i) as [[e|df]|] eqn:Hup, (app_session a') as [s|];
    try done.
  destruct (issubset required_cols (columns df)) eqn:Hcols; cbn [negb]; [|done].
  destruct (report_base_url _) as [e|base]; [done|].
  destruct (checked_rows_have_descriptors df Hcols (Hwf df eq_refl))
    as (ds & Hds & _).
  rewrite (fetch_rows_all _ _ _ _ Hds).
  pose proof (fetch_all_exit base ds (loop_start a' s df)) as Hexit.
  destruct (fetch_all _ _ _) as [l e]. cbn [snd] in Hexit.
  destruct Hexit as [->|[->|[e' ->]]]; try done.
  by destruct (download_button _ _ _ _ _) as [[? ?]|].
Qed.

(** X15. [st.session_state] gets a session only from a login that
    succeeds, and no run removes it: after a run there is a session
    exactly when there was one before or the login of the run returned
    one. *)
Theorem session_set_only_by_login (i : Inputs) (a : App) :
  is_Some (app_session (out_app (script i a)))
  ↔ is_Some (app_session a)
    ∨ (login_pressed i = true ∧ base_url i ≠ [] ∧ username i ≠ []
       ∧ password i ≠ []
       ∧ ∃ s msg,
           (perform_login (username i) (password i) (base_url i) (app_net a)).2
           = inr (Some s, msg)).
Proof.
  assert (Hscript : is_Some (app_session (out_app (script i a)))
                    ↔ is_Some (app_session (login_section i a).1.1)).
  { rewrite script_eq. cbv zeta.
    destruct (login_section i a) as [[a' ui] exit]. cbn [fst snd].
    destruct exit; try done. cbn [out_app]. apply bulk_section_session. }
  rewrite Hscript.
  destruct (decide (login_pressed i = true ∧ base_url i ≠ [] ∧ username i ≠ []
                    ∧ password i ≠ [])) as [(Hp & Hb & Hu & Hw)|Hno].
  - rewrite (login_section_pressed i a Hp Hb Hu Hw). cbv zeta.
    destruct (perform_login _ _ _ _).2 as [e|[[s|] msg]]; cbn.
    + split; [by left|]. intros [?|(_ & _ & _ & _ & ? & ? & ?)]; done.
    + split; [intros _|by eexists]. right. split_and!; try done; by eexists _, _.
    + split; [by left|]. intros [?|(_ & _ & _ & _ & ? & ? & ?)]; done.
  - destruct (login_section_idle i a Hno) as [-> _].
    split; [by left|]. intros [?|(? & ? & ? & ? & _)]; [done|].
    by destruct Hno.
Qed.

End ScriptProperties.

Section LoopProperties.
Context `{Platform}.

(** ** Invariants of the loop *)

Lemma fetch_result_entry (d : Descriptor) (x : exn + Response) n b :
  archive_entry (fetch_result d x) = Some (n, b) →
  zip_member_name (filename d) = inr n
  ∧ blit "%PDF" `prefix_of` b
  ∧ write_error (fetch_result d x) = None
  ∧ result_button (fetch_result d x) = Some (row_button_id (filename d) b).
Proof.
  destruct x as [e|r]; cbn -[filename lit]; [done|].
  destruct (is_pdf r) eqn:Hpdf; cbn -[filename lit]; [|done].
  destruct (zip_member_name (filename d)) as [e|m]; [done|].
  intros [= <- <-]. split_and!; try done.
  unfold is_pdf in Hpdf. apply andb_true_iff in Hpdf as [_ Hpdf].
  by apply startswith_prefix.
Qed.

(** What holds of the loop state before the loop and is kept by every
    turn of its body holds when the loop ends, however it ends. *)
Lemma fetch_rows_invariant (P : Loop → Prop) base rs (l : Loop) :
  (∀ row d l, row ∈ rs → row_descriptor row = inr d →
              P l → P (fetch_descriptor base d l).1) →
  P l → P (fetch_rows base rs l).1.
Proof.
  revert l. induction rs as [|row rs IH]; intros l Hstep Hl; [done|].
  cbn [fetch_rows]. destruct (row_descriptor row) as [k|d] eqn:Hrow; [done|].
  assert (Hl' : P (fetch_descriptor base d l).1).
  { apply (Hstep row); [apply list_elem_of_here|done..]. }
  destruct (fetch_descriptor base d l) as [l' []]; cbn [fst] in *; try done.
  apply IH; [|done]. intros row' d' l'' Hin. apply Hstep. by right.
Qed.

(** The same for what is kept by the turns after which the loop goes
    on, when the loop gets to its end. *)
Lemma fetch_rows_finished_invariant (P : Loop → Prop) base rs (l : Loop) :
  (∀ row d l, row ∈ rs → row_descriptor row = inr d →
              P l → (fetch_descriptor base d l).2 = Finished →
              P (fetch_descriptor base d l).1) →
  (fetch_rows base rs l).2 = Finished →
  P l → P (fetch_rows base rs l).1.
Proof.
  revert l. induction rs as [|row rs IH]; intros l Hstep Hfin Hl; [done|].
  cbn [fetch_rows] in *. destruct (row_descriptor row) as [k|d] eqn:Hrow; [done|].
  pose proof (Hstep row d l (list_elem_of_here _ _) Hrow Hl) as Hl'.
  destruct (fetch_descriptor base d l) as [l' []]; cbn [fst snd] in *; try done.
  apply IH; [|done|by apply Hl'].
  intros row' d' l'' Hin. apply Hstep. by right.
Qed.

(** The archive that the download part creates, with how it ends. *)
Lemma bulk_section_zip (i : Inputs) (a : App) zf :
  out_zip (bulk_section i a) = Some zf →
  ∃ session df base,
    app_session a = Some session ∧ uploaded_csv i = Some (inr df)
    ∧ report_base_url (base_url i) = inr base
    ∧ let out := fetch_rows base (rows df) (loop_start a session df) in
      zf = l_zf out.1
      ∧ (out_exit (bulk_section i a) = Finished → out.2 = Finished).
Proof.
  unfold bulk_section.
  destruct (uploaded_csv i) as [[e|df]|], (app_session a) as [s|]; try done.
  destruct (negb _); [done|].
  destruct (report_base_url _) as [e|base]; [done|].
  intros Hzip. exists s, df, base.
  split; [done|]. split; [done|]. split; [done|]. cbv zeta.
  destruct (fetch_rows _ _ _) as [l []]; cbn in *;
    try (injection Hzip as <-; done).
  destruct (download_button _ _ _ _ _) as [[? ?]|]; by injection Hzip as <-.
Qed.

Lemma script_zip (i : Inputs) (a : App) zf :
  out_zip (script i a) = Some zf →
  (login_section i a).2 = Finished
  ∧ out_zip (bulk_section i (login_section i a).1.1) = Some zf.
Proof.
  rewrite script_eq. cbv zeta.
  destruct (login_section i a) as [[a' ui] exit]. cbn [fst snd].
  by destruct exit.
Qed.

(** X14. Whatever a run of the script puts into the archive are the
    bytes of a PDF, under the member name of a row of the sheet: every
    entry has bytes that start with [%PDF] and the name that the
    archive makes of the file name of a row, however the run ends. *)
Theorem archive_holds_pdfs (i : Inputs) (a : App) zf :
  out_zip (script i a) = Some zf →
  ∃ df,
    uploaded_csv i = Some (inr df)
    ∧ Forall (fun e =>
                [Byte.x25; Byte.x50; Byte.x44; Byte.x46] `prefix_of` e.2
                ∧ ∃ row d, row ∈ rows df ∧ row_descriptor row = inr d
                    ∧ zip_member_name (filename d) = inr e.1) zf.
Proof.
  intros Hzip. apply script_zip in Hzip as [_ Hzip].
  apply bulk_section_zip in Hzip as (s & df & base & _ & Hup & _ & -> & _).
  exists df. split; [done|].
  apply (fetch_rows_invariant (fun l =>
    Forall (fun e =>
              [Byte.x25; Byte.x50; Byte.x44; Byte.x46] `prefix_of` e.2
              ∧ ∃ row d, row ∈ rows df ∧ row_descriptor row = inr d
                  ∧ zip_member_name (filename d) = inr e.1) (l_zf l)));
    [|done].
  intros row d l Hin Hrow Hl.
  destruct (fetch_descriptor_eq base d l) as (-> & _).
  apply Forall_app. split; [done|].
  destruct (archive_entry _) as [[n b]|] eqn:Hentry; [|done].
  apply fetch_result_entry in Hentry as (Hname & Hpdf & _).
  constructor; [|done]. split; [done|]. by exists row, d.
Qed.

Lemma NoDup_fmap_coarser {A B C} (f : A → B) (g : A → C) (l : list A) :
  (∀ x y, x ∈ l → y ∈ l → g x = g y → f x = f y) →
  NoDup (f <$> l) → NoDup (g <$> l).
Proof.
  induction l as [|x l IH]; intros Hfg; [intros _; apply NoDup_nil_2|].
  rewrite !fmap_cons, !NoDup_cons. intros [Hx Hl]. split.
  - intros Hin. apply Hx.
    apply list_elem_of_fmap in Hin as (y & Hy & Hin).
    apply list_elem_of_fmap. exists y. split; [|done].
    apply Hfg; [apply list_elem_of_here|by right|done].
  - apply IH; [|done]. intros y z Hy Hz. apply Hfg; by right.
Qed.

(** X17. When the ID of a download button does not depend on its data,
    as in recent versions of Streamlit, and the archive stores a name
    without a NUL character as it is, as [zipfile] does where the path
    separator is the slash: a download part that gets to its end, on a
    sheet whose file names have no NUL character, has made an archive
    whose entries have different names. *)
Theorem finished_archive_names_distinct (i : Inputs) (a : App) df zf :
  (∀ n b b', row_button_id n b = row_button_id n b') →
  (∀ n m, zip_member_name n = inr m → 0%N ∉ n → m = n) →
  uploaded_csv i = Some (inr df) →
  Forall (fun row => ∀ d, row_descriptor row = inr d → 0%N ∉ filename d)
         (rows df) →
  out_exit (bulk_section i a) = Finished →
  out_zip (bulk_section i a) = Some zf →
  NoDup zf.*1.
Proof.
  intros Hid Hkeep Hup Hnul Hfin Hzip.
  apply bulk_section_zip in Hzip as (s & df' & base & _ & Hup' & _ & Hzf & Hloop).
  rewrite Hup in Hup'. injection Hup' as <-.
  cbv zeta in Hzf, Hloop. specialize (Hloop Hfin). subst zf.
  set (button := fun e : pystr * bytes => row_button_id e.1 e.2).
  apply (NoDup_fmap_coarser button).
  { intros [n b] [n' b'] _ _ Hn. cbn in Hn. subst n'. apply Hid. }
  assert (Hinv : l_ids (fetch_rows base (rows df) (loop_start a s df)).1
                 = button <$> l_zf (fetch_rows base (rows df) (loop_start a s df)).1
                 ∧ NoDup (l_ids (fetch_rows base (rows df) (loop_start a s df)).1)).
  { apply (fetch_rows_finished_invariant
             (fun l => l_ids l = button <$> l_zf l ∧ NoDup (l_ids l)));
      [|done|by split; [|constructor]].
    intros row d l Hin Hrow [Hids Hnodup] Hstep.
    destruct (fetch_descriptor_eq base d l) as (Hzf & _ & _ & _ & _ & Hend).
    destruct (archive_entry _) as [[n b]|] eqn:Hentry.
    - apply fetch_result_entry in Hentry as (Hname & _ & Hwrite & Hbutton).
      rewrite Hwrite, Hbutton in Hend.
      assert (n = filename d) as ->.
      { apply Hkeep; [done|]. rewrite Forall_forall in Hnul. by apply (Hnul row). }
      case_bool_decide as Hold.
      + destruct Hend as [Hend _]. by rewrite Hend in Hstep.
      + destruct Hend as (_ & _ & ->). rewrite Hzf, fmap_app, <- Hids.
        split; [done|]. apply NoDup_app. split; [done|].
        split; [|apply NoDup_singleton].
        intros x Hx Hx'. apply list_elem_of_singleton in Hx' as ->. done.
    - destruct (write_error _) as [e|] eqn:Hwrite.
      { destruct Hend as [Hend _]. by rewrite Hend in Hstep. }
      assert (Hnone : result_button
                        (fetch_result d (result (exchange base d l))) = None).
      { destruct (fetch_result d _) as [n b|]; [|done].
        cbn in Hentry, Hwrite. by destruct (zip_member_name n). }
      rewrite Hnone in Hend. destruct Hend as (_ & _ & ->).
      rewrite Hzf. cbn. by rewrite app_nil_r. }
  destruct Hinv as [<- Hnodup]. done.
Qed.

(** X18. Every request of the loop leaves exactly one line in the
    result log, but for the request of a row at which the run ends
    because [zf.writestr] raises, which leaves none; and every entry
    added to the archive comes with one success line.  These counts
    grow together, whether rows succeed or fail and however the loop
    ends. *)
Theorem one_line_per_request base rs (l : Loop) :
  let out := fetch_rows base rs l in
  (length (result_log (l_ui out.1)) + length (sent (l_net l))
   + ended_in_writestr out.2
   = length (result_log (l_ui l)) + length (sent (l_net out.1)))%nat
  ∧ (length (success_lines (l_ui out.1)) + length (l_zf l)
     = length (success_lines (l_ui l)) + length (l_zf out.1))%nat.
Proof.
  cbv zeta. revert l. induction rs as [|row rs IH]; intros l; [cbn; split; lia|].
  cbn [fetch_rows]. destruct (row_descriptor row) as [k|d]; [cbn; split; lia|].
  destruct (fetch_descriptor_eq base d l) as (Hzf & Hlog & _ & _ & Hsent & Hend).
  set (r := fetch_result d _) in *.
  assert (Hstep :
    (length (result_log (l_ui (fetch_descriptor base d l).1))
     + length (sent (l_net l)) + ended_in_writestr (fetch_descriptor base d l).2
     = length (result_log (l_ui l))
       + length (sent (l_net (fetch_descriptor base d l).1)))%nat
    ∧ (length (success_lines (l_ui (fetch_descriptor base d l).1))
       + length (l_zf l)
       = length (success_lines (l_ui l))
         + length (l_zf (fetch_descriptor base d l).1))%nat).
  { clear IH. rewrite Hzf, Hlog, Hsent, !length_app. cbn [length].
    unfold log_line in *.
    assert (Happ : ∀ more,
      length (success_lines (l_ui l ++ more))
      = (length (success_lines (l_ui l)) + length (success_lines more))%nat).
    { intros more. unfold success_lines. by rewrite filter_app, length_app. }
    assert (Hone : ∀ r', length (success_lines [log_entry r'])
                         = length (option_list (fetched_name r'))).
    { by intros [?|? [?|?]]. }
    assert (Htwo : ∀ r', length (success_lines (row_events r'))
                         = length (option_list (fetched_name r'))).
    { by intros [?|? [?|?]]. }
    set (lines := length (success_lines (l_ui l))) in *.
    destruct (write_error r) as [e|] eqn:Hwrite.
    { destruct Hend as (-> & -> & _). fold lines.
      destruct r as [n b|j x]; [|done]. cbn in Hwrite |- *.
      destruct (zip_member_name n); [|done]. cbn. split; lia. }
    assert (Hentry : length (option_list (archive_entry r))
                     = length (option_list (fetched_name r))).
    { destruct r as [n b|j x]; [|done]. cbn in Hwrite |- *.
      by destruct (zip_member_name n). }
    rewrite Hentry.
    assert (Hexit : ended_in_writestr (fetch_descriptor base d l).2 = 0%nat
                    ∧ length (success_lines (l_ui (fetch_descriptor base d l).1))
                      = (lines + length (option_list (fetched_name r)))%nat).
    { destruct (result_button r); [case_bool_decide|];
        destruct Hend as (-> & -> & _); rewrite Happ, ?Hone, ?Htwo; done. }
    destruct Hexit as [-> ->]. simpl option_list. cbn [length]. split; lia. }
  specialize (IH (fetch_descriptor base d l).1).
  destruct (fetch_descriptor base d l) as [l' []]; cbn [fst snd] in *;
    try done.
  cbn [ended_in_writestr] in Hstep. split; lia.
Qed.

End LoopProperties.

Section RequestProperties.
Context `{Platform}.

(** ** The requests of the loop and of the login *)

Lemma pdf_url_eq base (d : Descriptor) : pdf_url base d = base ++ py_str (rid d).
Proof. unfold pdf_url, fstring. cbn [concat]. by rewrite app_nil_r. Qed.

Lemma row_request_first base d (l : Loop) :
  prepare GET (pdf_url base d) [] true 20 (l_session l)
  = row_request base d (l_session l) [].
Proof. unfold prepare, row_request. by rewrite pdf_url_eq. Qed.

Lemma row_request_later base d (s1 s : Session) (x : Reply) earlier :
  headers s1 = headers s →
  cookies s1 = store_cookies (set_cookies x) (cookies s) →
  row_request base d s1 earlier = row_request base d s (x :: earlier).
Proof.
  intros Hh Hc. unfold row_request. by rewrite Hh, Hc, jar_after_cons.
Qed.

(** The calls of the loop, and how many replies it gets. *)
Lemma fetch_all_sent base ds (l : Loop) :
  sent (l_net (fetch_all base ds l).1)
  = sent (l_net l) ++ row_requests base ds (l_session l) (exchanges base ds l)
  ∧ (length (exchanges base ds l) ≤ length ds)%nat
  ∧ ((fetch_all base ds l).2 = Finished →
     length (exchanges base ds l) = length ds)
  ∧ (ds ≠ [] → exchanges base ds l ≠ []).
Proof.
  revert l. induction ds as [|d ds IH]; intros l.
  { cbn. by rewrite app_nil_r. }
  rewrite fetch_all_cons, exchanges_cons.
  destruct (fetch_descriptor_eq base d l) as (_ & _ & Hh & Hc & Hs & _).
  cbv zeta in Hh, Hc, Hs.
  destruct (IH (fetch_descriptor base d l).1) as (IHs & IHle & IHfin & _).
  unfold row_requests. cbn [length take]. rewrite imap_cons.
  cbn [take]. rewrite <- row_request_first.
  case_bool_decide as Hfin.
  - rewrite IHs, Hs, <- app_assoc. cbn [app]. split_and!; try done.
    + do 2 f_equal. unfold row_requests. apply imap_ext.
      intros i d' _. cbn [compose take]. by apply row_request_later.
    + cbn. lia.
    + intros Hend. cbn. by rewrite IHfin.
  - rewrite Hs. cbn. split_and!; try done; lia.
Qed.

(** X13. The requests of the loop.  For a sheet whose rows have the
    four fields, the loop keeps the calls made before it and adds its
    own after them, one for each row it gets to, in the order of the
    sheet: it gets to the first row of a sheet that has rows, and to
    every row when it runs to its end.  The call for a row is a GET of
    the base of the report URLs followed by the row's identifier, with
    redirects allowed and a timeout of 20, with the headers of the
    session the loop was entered with and with its jar, updated by the
    replies to the rows before, in their order. *)
Theorem loop_requests base rs ds (l : Loop) :
  descriptors rs = Some ds →
  let out := fetch_rows base rs l in
  let replies := exchanges base ds l in
  sent (l_net out.1)
  = sent (l_net l) ++ row_requests base ds (l_session l) replies
  ∧ length (sent (l_net out.1))
    = (length (sent (l_net l)) + length replies)%nat
  ∧ (length replies ≤ length ds)%nat
  ∧ (out.2 = Finished → length replies = length ds)
  ∧ (ds ≠ [] → replies ≠ [])
  ∧ (∀ (i : nat) d, (i < length replies)%nat → ds !! i = Some d →
       sent (l_net out.1) !! (length (sent (l_net l)) + i)%nat
       = Some {| req_method := GET;
                 req_url := base ++ py_str (rid d);
                 req_headers := headers (l_session l);
                 req_jar := jar_after (take i replies) (cookies (l_session l));
                 req_data := [];
                 req_allow_redirects := true;
                 req_timeout := 20 |}).
Proof.
  intros Hds. cbv zeta. rewrite (fetch_rows_all base rs ds l Hds).
  destruct (fetch_all_sent base ds l) as (Hsent & Hle & Hfin & Hsome).
  assert (Hlen : length (row_requests base ds (l_session l) (exchanges base ds l))
                 = length (exchanges base ds l)).
  { unfold row_requests. rewrite length_imap, length_take. lia. }
  split_and!; try done.
  - by rewrite Hsent, length_app, Hlen.
  - intros i d Hi Hd. rewrite Hsent, lookup_app_r by lia.
    replace (length (sent (l_net l)) + i - length (sent (l_net l)))%nat
      with i by lia.
    unfold row_requests. rewrite list_lookup_imap, lookup_take_lt, Hd by done.
    done.
Qed.

(** The platform's [urljoin] on the two paths of the portal, when it
    is the one of the model. *)
Lemma urljoin_model_path cb cn (scheme netloc rest path : pystr) :
  (∀ b u, urljoin b u = Urllib.urljoin cb cn b u) →
  scheme ∈ [lit "http"; lit "https"] → netloc ≠ [] →
  Forall authority_char netloc → starts_component rest →
  path ∈ [report_path; login_path] →
  urljoin (scheme ++ lit "://" ++ netloc ++ rest) path
  = inr (scheme ++ lit "://" ++ netloc ++ path).
Proof. intros ->. apply urljoin_portal_path. Qed.

(** X16. The URLs of the login, with [urljoin] as in [urllib.parse].
    For a base URL that consists of the scheme [http] or [https] in
    lower case, a colon and two slashes, a non-empty authority of
    printable ASCII characters other than the space, slash, question
    mark, hash and the square brackets, and then nothing or a path,
    query or fragment: the sign-in URL is the scheme and the authority
    followed by the login path, whatever follows the authority in the
    base URL, and a login whose page has the token field calls the
    base URL as it was entered and then that sign-in URL. *)
Theorem login_urls cb cn (scheme netloc rest : pystr) :
  (∀ b u, urljoin b u = Urllib.urljoin cb cn b u) →
  scheme ∈ [lit "http"; lit "https"] → netloc ≠ [] →
  Forall authority_char netloc → starts_component rest →
  let base := scheme ++ lit "://" ++ netloc ++ rest in
  let signin := scheme ++ lit "://" ++ netloc ++ lit "/form/secursignin/signin" in
  urljoin base (lit "/form/secursignin/signin") = inr signin
  ∧ ∀ username password (net : Net) page token_input,
      result (login_page_reply base net) = inr page →
      status_code page = 200 →
      find (html_parser (text page)) (lit "input") (lit "name")
        (lit "_csrf_token") = Some token_input →
      map req_url (sent (perform_login username password base net).1)
      = map req_url (sent net) ++ [base; signin].
Proof.
  intros Hjoin Hs Hne Hn Hr base signin.
  assert (Hurl : urljoin base (lit "/form/secursignin/signin") = inr signin).
  { apply (urljoin_model_path cb cn); try done.
    apply list_elem_of_further, list_elem_of_here. }
  split; [done|]. intros u p net page token_input Hpage H200 Hfind.
  pose proof (perform_login_cases u p base net) as Hc. cbv zeta in Hc.
  rewrite Hpage, (bool_decide_eq_true_2 _ H200), Hfind, Hurl in Hc.
  destruct Hc as [-> _]. by rewrite map_app.
Qed.

End RequestProperties.

Section RunProperties.
Context `{Platform}.

(** ** The parts of a run together *)

(** X19. A login and an upload in the same run: when the Login button
    is pressed with the three fields filled, the login gives a session,
    the uploaded sheet has the four columns and rows with the four
    fields and [urljoin] gives the base of the report URLs, the loop of
    that run works with the new session, whatever session was kept
    before: what the run has sent is what the login sent, followed by
    the calls of the loop, one for each row it gets to, with the
    headers of the new session and with its jar, updated by the replies
    to the rows before.  The loop gets to the first row of a sheet that
    has rows, and to every row when the run gets to its end. *)
Theorem fresh_login_used_by_loop (i : Inputs) (a : App) (s : Session) msg df
    base ds :
  login_pressed i = true → base_url i ≠ [] → username i ≠ [] → password i ≠ [] →
  let out := perform_login (username i) (password i) (base_url i) (app_net a) in
  let a' := {| app_net := out.1; app_session := Some s |} in
  out.2 = inr (Some s, msg) →
  uploaded_csv i = Some (inr df) →
  issubset required_cols (columns df) = true →
  report_base_url (base_url i) = inr base →
  descriptors (rows df) = Some ds →
  let replies := exchanges base ds (loop_start a' s df) in
  sent (app_net (out_app (script i a)))
  = sent out.1 ++ row_requests base ds s replies
  ∧ length (sent (app_net (out_app (script i a))))
    = (length (sent out.1) + length replies)%nat
  ∧ (length replies ≤ length ds)%nat
  ∧ (out_exit (script i a) = Finished → length replies = length ds)
  ∧ (ds ≠ [] → replies ≠ [])
  ∧ (∀ (k : nat) d, (k < length replies)%nat → ds !! k = Some d →
       sent (app_net (out_app (script i a))) !! (length (sent out.1) + k)%nat
       = Some {| req_method := GET;
                 req_url := base ++ py_str (rid d);
                 req_headers := headers s;
                 req_jar := jar_after (take k replies) (cookies s);
                 req_data := [];
                 req_allow_redirects := true;
                 req_timeout := 20 |}).
Proof.
  intros Hp Hb Hu Hw out a' Hs Hup Hcols Hbase Hds replies.
  rewrite script_eq, (login_section_pressed i a Hp Hb Hu Hw).
  fold out. rewrite Hs. fold a'. cbn [fst snd out_app out_exit].
  pose proof (bulk_section_eq i a' df s base ds Hup eq_refl Hcols Hbase Hds)
    as Hbulk.
  cbv zeta in Hbulk.
  destruct (fetch_all_sent base ds (loop_start a' s df))
    as (Hsent & Hle & Hfin & Hsome).
  fold replies in Hsent, Hle, Hfin, Hsome.
  assert (Hlen : length (row_requests base ds s replies) = length replies).
  { unfold row_requests. rewrite length_imap, length_take. by apply Nat.min_l. }
  assert (Hnet : app_net (out_app (bulk_section i a'))
                 = l_net (fetch_all base ds (loop_start a' s df)).1
                 ∧ (out_exit (bulk_section i a') = Finished →
                    (fetch_all base ds (loop_start a' s df)).2 = Finished)).
  { rewrite Hbulk. destruct (fetch_all base ds (loop_start a' s df)) as [l []];
      cbn; try done. by destruct (download_button _ _ _ _ _) as [[? ?]|]. }
  destruct Hnet as [-> Hexit]. rewrite Hsent. cbn [loop_start l_net l_session app_net].
  split_and!; try done.
  - by rewrite length_app, Hlen.
  - intros Hend. by apply Hfin, Hexit.
  - intros k d Hk Hd. rewrite lookup_app_r by apply Nat.le_add_r.
    rewrite Nat.add_simpl_l.
    unfold row_requests. rewrite list_lookup_imap, lookup_take_lt, Hd by done.
    done.
Qed.

(** X20. An upload without a session, be it that nobody signed in or
    that the login of this run gave none: the run makes no archive and
    the download part sends nothing; unless the login part ended the
    run, the run shows the please-login-first error as its last line
    and ends normally.  The file is not even read, so this holds for a
    file that is not a CSV file as well. *)
Theorem upload_needs_session (i : Inputs) (a : App) (upload : exn + DataFrame) :
  uploaded_csv i = Some upload →
  app_session (login_section i a).1.1 = None →
  let o := script i a in
  out_zip o = None
  ∧ out_app o = (login_section i a).1.1
  ∧ out_exit o = (login_section i a).2
  ∧ ((login_section i a).2 = Finished →
     out_exit o = Finished
     ∧ last (out_ui o) = Some (st_error PleaseLoginFirst)).
Proof.
  intros Hup Hnone. cbv zeta. rewrite script_eq. cbv zeta.
  destruct (login_section i a) as [[a' ui] exit]. cbn [fst snd] in *.
  destruct exit; try done.
  unfold bulk_section. rewrite Hup, Hnone. cbn [out_exit out_zip out_ui out_app].
  split_and!; try done. intros _. split; [done|].
  change ([st_title AppTitle] ++ ui ++ [st_markdown Rule] ++ [st_error PleaseLoginFirst])
    with ([st_title AppTitle] ++ ui ++ [st_markdown Rule] ++ [] ++ [st_error PleaseLoginFirst]).
  by rewrite !app_assoc, last_snoc.
Qed.

(** X21. An upload that cannot be read as CSV, in a run with a session:
    the run makes no archive and the download part sends nothing;
    unless the login part ended the run, the run shows the error of
    the reader as its last line and stops there. *)
Theorem unreadable_csv_stops (i : Inputs) (a : App) (e : exn) :
  uploaded_csv i = Some (inl e) →
  is_Some (app_session (login_section i a).1.1) →
  let o := script i a in
  out_zip o = None
  ∧ out_app o = (login_section i a).1.1
  ∧ ((login_section i a).2 = Finished →
     out_exit o = Stopped
     ∧ last (out_ui o) = Some (st_error (FailedToReadCsv e))).
Proof.
  intros Hup [s Hs]. cbv zeta. rewrite script_eq. cbv zeta.
  destruct (login_section i a) as [[a' ui] exit]. cbn [fst snd] in *.
  destruct exit; try done.
  unfold bulk_section. rewrite Hup, Hs. cbn [out_exit out_zip out_ui out_app].
  split_and!; try done. intros _. split; [done|].
  change ([st_title AppTitle] ++ ui ++ [st_markdown Rule] ++ [st_error (FailedToReadCsv e)])
    with ([st_title AppTitle] ++ ui ++ [st_markdown Rule] ++ [] ++ [st_error (FailedToReadCsv e)]).
  by rewrite !app_assoc, last_snoc.
Qed.

Lemma row_events_no_zip_button (r : FetchResult) :
  Forall (fun e => ¬ is_zip_button e) (row_events r)
  ∧ ¬ is_zip_button (log_entry r).
Proof.
  destruct r as [n b|j [e|st]]; cbn; split;
    repeat constructor; by intros (? & ? & ? & [=]).
Qed.

(** X22. The download button of the archive is the last thing the
    download part shows, and it shows it only when the loop got through
    all rows: then the button holds the archive with exactly the entries
    written.  Every other line of the download part is not that button. *)
Theorem zip_button_only_when_finished (i : Inputs) (a : App) :
  let o := bulk_section i a in
  ∃ shown,
    Forall (fun e => ¬ is_zip_button e) shown
    ∧ out_ui o
      = shown ++ match out_zip o, out_exit o with
                 | Some zf, Finished => [zip_button zf]
                 | _, _ => []
                 end.
Proof.
  cbv zeta. unfold bulk_section.
  destruct (uploaded_csv i) as [[e|df]|], (app_session a) as [s|];
    try (eexists; split; [|by rewrite app_nil_r];
         repeat constructor; by intros (? & ? & ? & [=])).
  destruct (negb _).
  { eexists; split; [|by rewrite app_nil_r].
    repeat constructor; by intros (? & ? & ? & [=]). }
  destruct (report_base_url _) as [e|base].
  { eexists; split; [|by rewrite app_nil_r].
    repeat constructor; by intros (? & ? & ? & [=]). }
  assert (Hinv : Forall (fun e => ¬ is_zip_button e)
                   (l_ui (fetch_rows base (rows df) (loop_start a s df)).1)).
  { apply (fetch_rows_invariant (fun l => Forall (fun e => ¬ is_zip_button e) (l_ui l))).
    - intros row d l _ _ Hl.
      destruct (fetch_descriptor_eq base d l) as (_ & _ & _ & _ & _ & Hend).
      destruct (row_events_no_zip_button
                  (fetch_result d (result (exchange base d l))))
        as [Hrow Hline].
      destruct (write_error _); [by destruct Hend as (_ & -> & _)|].
      destruct (result_button _); [case_bool_decide|];
        destruct Hend as (_ & -> & _); apply Forall_app; split; try done;
        by repeat constructor.
    - repeat constructor; by intros (? & ? & ? & [=]). }
  destruct (fetch_rows _ _ _) as [l exit]. cbn [fst] in Hinv.
  destruct exit; cbn [out_ui out_zip out_exit];
    try (exists (l_ui l); split; [done|by rewrite app_nil_r]).
  unfold download_button. case_bool_decide; cbn [out_ui out_zip out_exit].
  - exists (l_ui l ++ [st_markdown DownloadAllAsZip]). split; [|by rewrite app_nil_r].
    apply Forall_app. split; [done|]. repeat constructor. by intros (? & ? & ? & [=]).
  - exists (l_ui l ++ [st_markdown DownloadAllAsZip]). split; [|by rewrite <- app_assoc].
    apply Forall_app. split; [done|]. repeat constructor. by intros (? & ? & ? & [=]).
Qed.

(** X24. A base URL for which [urljoin] raises when the base of the
    report URLs is made, in a run with a session and a sheet with the
    four columns: the download part shows the sheet and ends with that
    [ValueError]; it sends nothing and makes no archive, whatever the
    rows of the sheet. *)
Theorem report_url_error_stops_download (i : Inputs) (a : App) df session e :
  uploaded_csv i = Some (inr df) → app_session a = Some session →
  issubset required_cols (columns df) = true →
  report_base_url (base_url i) = inl e →
  bulk_section i a
  = {| out_app := a;
       out_ui := [st_write LoadedCsv; st_dataframe df];
       out_zip := None;
       out_exit := ValueError e |}.
Proof.
  intros Hup Hs Hcols Hbase. unfold bulk_section.
  by rewrite Hup, Hs, Hcols, Hbase.
Qed.

End RunProperties.

(** ** Examples on the scripted portal *)

(** On the scripted portal [urljoin] is the one of the model. *)
Lemma scripted_urljoin (b u : pystr) :
  @urljoin scripted b u = Urllib.urljoin no_check no_check b u.
Proof.
  unfold urljoin.
  case_bool_decide as Hb; [by subst|].
  case_bool_decide as Hu; [subst|done].
  unfold Urllib.urljoin. by rewrite (bool_decide_eq_false_2 _ Hb).
Qed.

(** The member names of [zipfile] on a system whose separator is the
    slash: a name without a NUL is kept as it is, if it is taken. *)
Lemma cut_at_nul_id (s : pystr) : 0%N ∉ s → Zipfile.cut_at_nul s = s.
Proof.
  induction s as [|c s IH]; [done|]. intros Hs. cbn.
  case_bool_decide as Hc.
  - subst c. exfalso. apply Hs, list_elem_of_here.
  - f_equal. apply IH. intros Hin. by apply Hs, list_elem_of_further.
Qed.

Lemma slashes_id (s : pystr) : Zipfile.slashes 47 s = s.
Proof.
  unfold Zipfile.slashes. induction s as [|c s IH]; [done|]. cbn.
  rewrite IH. by case_bool_decide; subst.
Qed.

Lemma member_name_kept (n m : pystr) :
  Zipfile.member_name 47 n = inr m → 0%N ∉ n → m = n.
Proof.
  intros Hm Hn. unfold Zipfile.member_name in Hm.
  rewrite (cut_at_nul_id n Hn), slashes_id in Hm.
  case_bool_decide; [done|].
  destruct (Zipfile.utf8_length n); [|done].
  case_bool_decide; [done|]. by injection Hm.
Qed.

(** The body of a response is a PDF or not, as the loop tests it. *)
Example pdf_body_accepted :
  is_pdf {| status_code := 200; content := blit "%PDFfakebytes"; text := [] |} = true
  ∧ is_pdf {| status_code := 200; content := blit "<html>error</html>"; text := [] |}
    = false
  ∧ is_pdf {| status_code := 404; content := blit "%PDFfakebytes"; text := [] |}
    = false.
Proof. by vm_compute. Qed.

Example safe_filename_example :
  safe_filename (Str (lit "a/b:c d")) = lit "a_b_c d"
  ∧ safe_filename NaN = lit "nan".
Proof. by vm_compute. Qed.

Example filename_example :
  filename (report "17" "Patrol: night" "ACME/West" "2024-01-05")
  = lit "Patrol_ night_ACME_West_2024-01-05_(17).pdf".
Proof. by vm_compute. Qed.

(** The member names of the archive, on a system whose path separator
    is the slash and on one where it is the backslash. *)
Example member_name_example :
  Zipfile.member_name 47 (lit "Patrol_ACME_2024-01-05_(17).pdf")
  = inr (lit "Patrol_ACME_2024-01-05_(17).pdf")
  ∧ Zipfile.member_name 47 [80; 97; 116; 0; 65]%N = inr (lit "Pat")
  ∧ Zipfile.member_name 47 [0; 97; 98; 99]%N = inl (lit "IndexError")
  ∧ Zipfile.member_name 47 [120; 55296]%N = inl (lit "UnicodeEncodeError")
  ∧ Zipfile.member_name 47 [97; 92; 98]%N = inr [97; 92; 98]%N
  ∧ Zipfile.member_name 92 [97; 92; 98]%N = inr (lit "a/b").
Proof. by vm_compute. Qed.

(** A 200 response with a PDF body is saved under the file name of the
    row, with a download button of its own. *)
Example fetched_row_example :
  let out := @fetch_descriptor scripted reports_url night
               (start_loop [ok 200 "%PDFfakebytes"]) in
  out.2 = Finished
  ∧ l_zf out.1 = [(lit "Patrol_ACME_2024-01-05_(17).pdf", blit "%PDFfakebytes")]
  ∧ l_ui out.1
    = [ st_success (Saved (lit "Patrol_ACME_2024-01-05_(17).pdf"));
        st_download_button (DownloadFile (lit "Patrol_ACME_2024-01-05_(17).pdf"))
          (RawBytes (blit "%PDFfakebytes")) (lit "Patrol_ACME_2024-01-05_(17).pdf")
          (lit "application/pdf") ].
Proof. by vm_compute. Qed.

(** The name of a report of 65536 characters does not fit the header of
    an archive member. *)
Lemma unwieldy_name :
  @zip_member_name scripted (filename unwieldy) = inl (lit "struct.error").
Proof. by vm_compute. Qed.

(** A 200 response with a PDF body for a row whose report name has
    65536 characters: [zf.writestr] raises, the run ends there, and the
    row is neither saved nor logged. *)
Lemma fetched_row_recorded_witness :
  let out := @fetch_descriptor scripted reports_url unwieldy
               (start_loop [ok 200 "%PDFfakebytes"]) in
  out.2 = WritestrError (lit "struct.error")
  ∧ l_zf out.1 = []
  ∧ l_ui out.1 = [].
Proof.
  pose proof (@fetched_row_recorded scripted reports_url unwieldy
                (start_loop [ok 200 "%PDFfakebytes"])
                {| status_code := 200; content := blit "%PDFfakebytes";
                   text := lit "%PDFfakebytes" |} eq_refl)
    as (_ & _ & Hpdf & _).
  rewrite unwieldy_name in Hpdf. apply Hpdf.
  split; [reflexivity|]. by exists (blit "fakebytes").
Defined.

(** Three rows, the second answered with 404: two entries, three lines. *)
Lemma batch_continues_witness :
  let out := @fetch_rows scripted reports_url [series night; series day; series dawn]
               (start_loop [ok 200 "%PDF-1.4 a"; ok 404 "gone"; ok 200 "%PDF-1.4 c"]) in
  out.2 = Finished
  ∧ l_zf out.1 = [ (filename night, blit "%PDF-1.4 a");
                   (filename dawn, blit "%PDF-1.4 c") ]
  ∧ result_log (l_ui out.1)
    = [ st_success (Saved (filename night));
        st_error (FailedStatus (Str (lit "18")) 404);
        st_success (Saved (filename dawn)) ].
Proof.
  pose proof (@batch_continues scripted reports_url
                [series night; series day; series dawn] [night; day; dawn]
                (start_loop [ok 200 "%PDF-1.4 a"; ok 404 "gone"; ok 200 "%PDF-1.4 c"])
                eq_refl) as Hrun.
  destruct Hrun as (Hexit & _ & _ & Hzf & _ & Hlog & _).
  - apply (bool_decide_unpack _). by vm_compute.
  - apply (bool_decide_unpack _). by vm_compute.
  - split; [exact Hexit|]. split; [exact Hzf | exact Hlog].
Defined.

(** C2 as stated fails: the line for a row whose request raised an
    exception carries the identifier and the exception text, and no
    status. *)
Lemma failed_row_without_status :
  let out := @fetch_rows scripted reports_url [series night] (start_loop [timed_out]) in
  out.2 = Finished
  ∧ result_log (l_ui out.1) = [st_error (Failed (rid night) (lit "timed out"))]
  ∧ ¬ ∃ status : Z,
        result_log (l_ui out.1) = [st_error (FailedStatus (rid night) status)].
Proof.
  split; [reflexivity|]. split; [reflexivity|].
  intros [status Hs]. vm_compute in Hs. discriminate Hs.
Qed.

(** A login that ends on a page with a logout link. *)
Lemma login_classification_witness :
  (@perform_login scripted (lit "guard") (lit "secret") portal_url
     (at_portal [ok 200 "<input name=_csrf_token value=tok>";
                 ok 200 "<a href=/x>Logout</a>"])).2
  = inr (Some (@new_session scripted), LoginSuccessful).
Proof.
  pose proof (@login_classification scripted (lit "guard") (lit "secret") portal_url
                (at_portal [ok 200 "<input name=_csrf_token value=tok>";
                            ok 200 "<a href=/x>Logout</a>"])
                login_page_ok token_tag
                (lit "https://client.tracktik.com/form/secursignin/signin")
                {| status_code := 200; content := blit "<a href=/x>Logout</a>";
                   text := lit "<a href=/x>Logout</a>" |}
                eq_refl eq_refl eq_refl eq_refl eq_refl)
    as (Hfull & _).
  rewrite Hfull; [reflexivity|]. split; reflexivity.
Defined.

(** The other two outcomes of the login POST. *)
Example login_sent_example :
  (@perform_login scripted (lit "guard") (lit "secret") portal_url
     (at_portal [ok 200 "<input name=_csrf_token value=tok>";
                 ok 302 "Logout"])).2
  = inr (Some (@new_session scripted), LoginSent)
  ∧ (@perform_login scripted (lit "guard") (lit "secret") portal_url
       (at_portal [ok 200 "<input name=_csrf_token value=tok>";
                   ok 403 "Logout"])).2
    = inr (None, LoginFailed 403).
Proof. split; reflexivity. Qed.

(** A sheet without the [date] column, uploaded when signed in. *)
Lemma missing_columns_rejected_witness :
  let o := @bulk_section scripted (upload_run sheet_without_date)
             (signed_in [ok 200 "%PDF-1.4 a"]) in
  out_ui o = [st_error CsvMustContainColumns]
  ∧ out_exit o = Stopped ∧ out_zip o = None
  ∧ sent (app_net (out_app o)) = [].
Proof.
  pose proof (@missing_columns_rejected scripted (upload_run sheet_without_date)
                (signed_in [ok 200 "%PDF-1.4 a"]) sheet_without_date (lit "date")
                eq_refl) as Hrej.
  destruct Hrej as (_ & Hsent & Hzip & _ & Hui & _).
  - apply (bool_decide_unpack _). by vm_compute.
  - apply (bool_decide_unpack _). by vm_compute.
  - destruct Hui as [Hui Hexit]; [by eexists|]. done.
Defined.




(** The URL of a report for the base URL of the form. *)
Lemma report_url_spec_witness :
  @report_base_url scripted portal_url = inr reports_url
  ∧ pdf_url reports_url night
    = lit "https://client.tracktik.com/patrol/default/viewreportprintable/idreport/17".
Proof.
  pose proof (@report_url_spec scripted no_check no_check (lit "https")
                (lit "client.tracktik.com") (lit "/") night scripted_urljoin)
    as Hurl.
  destruct Hurl as (_ & _ & Hbase & Hrow & _).
  - apply (bool_decide_unpack _). by vm_compute.
  - discriminate.
  - apply (bool_decide_unpack _). by vm_compute.
  - right. exists 47%N, []. split; [reflexivity|].
    apply (bool_decide_unpack _). by vm_compute.
  - split; [exact Hbase | exact Hrow].
Defined.

(** C8 as stated fails: for the base URL the form suggests, which ends
    with a slash, [report_base_url] is not the base URL followed by the
    report path (that text has two slashes after the host). *)
Lemma report_base_url_not_appended :
  @report_base_url scripted portal_url
  = inr (lit "https://client.tracktik.com/patrol/default/viewreportprintable/idreport/")
  ∧ portal_url ++ report_path
    = lit "https://client.tracktik.com//patrol/default/viewreportprintable/idreport/"
  ∧ @report_base_url scripted portal_url ≠ inr (portal_url ++ report_path).
Proof.
  split; [by vm_compute|]. split; [by vm_compute|].
  intros Heq. vm_compute in Heq. discriminate Heq.
Qed.

(** Replies without cookies leave the session as it was. *)
Lemma fetch_session_frame_witness :
  l_session (@fetch_rows scripted reports_url [series night; series day]
               (start_loop [ok 200 "%PDF-1.4 a"; ok 404 "gone"])).1
  = @new_session scripted.
Proof.
  pose proof (@fetch_session_frame scripted reports_url [series night; series day]
                [night; day] (start_loop [ok 200 "%PDF-1.4 a"; ok 404 "gone"])
                eq_refl) as (_ & _ & Hsame).
  apply Hsame. repeat constructor.
Defined.

(** C9 as stated fails: a reply to a report request that sets a cookie
    changes the cookie jar of the session. *)
Lemma fetch_stores_cookies :
  let l := start_loop [ok_with_cookie 200 "%PDF-1.4 a" "PHPSESSID" "renewed"] in
  let l' := (@fetch_rows scripted reports_url [series night] l).1 in
  cookies (l_session l) !! portal_cookie "PHPSESSID" = None
  ∧ cookies (l_session l') !! portal_cookie "PHPSESSID" = Some (cookie "renewed")
  ∧ cookies (l_session l') ≠ cookies (l_session l)
  ∧ l_session l' ≠ l_session l.
Proof.
  cbv zeta.
  assert (Hfresh : cookies (l_session (start_loop
            [ok_with_cookie 200 "%PDF-1.4 a" "PHPSESSID" "renewed"]))
            !! portal_cookie "PHPSESSID" = None) by by vm_compute.
  assert (Hset : cookies (l_session (@fetch_rows scripted reports_url [series night]
            (start_loop [ok_with_cookie 200 "%PDF-1.4 a" "PHPSESSID" "renewed"])).1)
            !! portal_cookie "PHPSESSID" = Some (cookie "renewed")) by by vm_compute.
  split; [done|]. split; [done|].
  split; [intros Heq | intros Heq]; rewrite Heq, Hfresh in Hset; discriminate Hset.
Qed.

(** The same row twice, both fetched with the same bytes: the run ends
    at the second download button, with two entries in the open archive. *)
Lemma duplicate_rows_stop_the_run_witness :
  let o := @bulk_section scripted
             (upload_run {| columns := required_cols;
                            rows := [series night; series night] |})
             (signed_in [ok 200 "%PDF-1.4 a"; ok 200 "%PDF-1.4 a"]) in
  out_exit o = DuplicateWidgetID
  ∧ out_zip o
    = Some [ (filename night, blit "%PDF-1.4 a"); (filename night, blit "%PDF-1.4 a") ].
Proof.
  pose proof (@duplicate_rows_stop_the_run scripted
                (upload_run {| columns := required_cols;
                               rows := [series night; series night] |})
                (signed_in [ok 200 "%PDF-1.4 a"; ok 200 "%PDF-1.4 a"])
                {| columns := required_cols; rows := [series night; series night] |}
                (@new_session scripted) (series night) night
                reports_url (filename night)
                {| status_code := 200; content := blit "%PDF-1.4 a";
                   text := lit "%PDF-1.4 a" |}
                {| status_code := 200; content := blit "%PDF-1.4 a";
                   text := lit "%PDF-1.4 a" |}
                eq_refl eq_refl eq_refl eq_refl eq_refl eq_refl eq_refl eq_refl
                eq_refl eq_refl eq_refl eq_refl) as (Hexit & Hzip & _).
  split; [exact Hexit | exact Hzip].
Defined.

(** Each of the nine characters becomes an underscore, the letters
    between them stay. *)
Lemma safe_filename_spec_witness :
  safe_filename (Str nine_between_letters) = lit "a_b_c_d_e_f_g_h_i_j".
Proof.
  pose proof (safe_filename_spec nine_between_letters) as (_ & _ & _ & Hmap & _).
  by rewrite Hmap.
Defined.

(** ** Examples for the further properties *)

(** A slash in the identifier of a row gets into the file name. *)
Lemma filename_forbidden_from_id_witness :
  47%N ∈ filename (report "17/2" "Patrol/Night" "ACME" "2024-01-05").
Proof.
  apply (filename_forbidden_from_id (report "17/2" "Patrol/Night" "ACME" "2024-01-05")
           47%N).
  - apply (bool_decide_unpack _). by vm_compute.
  - apply (bool_decide_unpack _). by vm_compute.
Defined.

(** A portal that answers the login page with status 503. *)
Lemma login_page_failure_witness :
  let out := @perform_login scripted (lit "guard") (lit "secret") portal_url
               (at_portal [ok 503 "down"; ok 200 "Logout"]) in
  out.2 = inr (None, CouldNotLoadLoginPageStatus 503)
  ∧ map req_method (sent out.1) = [GET].
Proof.
  pose proof (@login_page_failure scripted (lit "guard") (lit "secret") portal_url
                (at_portal [ok 503 "down"; ok 200 "Logout"])) as Hfail.
  destruct Hfail as (Hout & Hsent).
  - intros (page & Hpage & Hstatus). injection Hpage as <-. discriminate Hstatus.
  - split; [exact Hout|]. cbv zeta. by rewrite Hsent.
Defined.

(** A login page with the token field that sets a cookie: a GET with
    an empty jar, then a POST of the form with the jar that holds the
    cookie. *)
Lemma login_post_follows_page_witness :
  sent (@perform_login scripted (lit "guard") (lit "secret") portal_url
          (at_portal [ok_with_cookie 200 "<input name=_csrf_token value=tok>"
                        "PHPSESSID" "fresh";
                      ok 200 "Logout"])).1
  = [ {| req_method := GET;
         req_url := lit "https://client.tracktik.com/";
         req_headers := ∅;
         req_jar := ∅;
         req_data := [];
         req_allow_redirects := true;
         req_timeout := 15 |};
      {| req_method := POST;
         req_url := lit "https://client.tracktik.com/form/secursignin/signin";
         req_headers := ∅;
         req_jar := {[ portal_cookie "PHPSESSID" := cookie "fresh" ]};
         req_data :=
           [ (lit "email", Some (lit "guard"));
             (lit "password", Some (lit "secret"));
             (lit "_csrf_token", Some (lit "tok"));
             (lit "locale", Some (lit "en_us"));
             (lit "submit", Some (lit "Login")) ];
         req_allow_redirects := true;
         req_timeout := 15 |} ].
Proof.
  rewrite (@login_post_follows_page scripted (lit "guard") (lit "secret") portal_url
             (at_portal [ok_with_cookie 200 "<input name=_csrf_token value=tok>"
                           "PHPSESSID" "fresh";
                         ok 200 "Logout"])
             login_page_ok token_tag
             (lit "https://client.tracktik.com/form/secursignin/signin")
             eq_refl eq_refl eq_refl eq_refl).
  reflexivity.
Defined.

(** A portal that answers the login page and then no more. *)
Lemma login_post_failure_witness :
  (@perform_login scripted (lit "guard") (lit "secret") portal_url
     (at_portal [ok 200 "<input name=_csrf_token value=tok>"])).2
  = inr (None, LoginRequestFailed (lit "timed out")).
Proof.
  apply (@login_post_failure scripted (lit "guard") (lit "secret") portal_url
           (at_portal [ok 200 "<input name=_csrf_token value=tok>"])
           login_page_ok token_tag
           (lit "https://client.tracktik.com/form/secursignin/signin")
           (lit "timed out") eq_refl eq_refl eq_refl eq_refl eq_refl).
Defined.

(** A login that gives a session has sent two requests. *)
Lemma session_only_after_post_witness :
  length (sent (@perform_login scripted (lit "guard") (lit "secret") portal_url
                  (at_portal [ok 200 "<input name=_csrf_token value=tok>";
                              ok 302 "moved"])).1)
  = 2%nat.
Proof.
  destruct (@session_only_after_post scripted (lit "guard") (lit "secret") portal_url
              (at_portal [ok 200 "<input name=_csrf_token value=tok>";
                          ok 302 "moved"])
              (@new_session scripted) LoginSent eq_refl)
    as (page & tag & url & resp & _ & _ & _ & _ & _ & _ & _ & _ & _ & Hlen).
  exact Hlen.
Defined.

(** A base URL whose authority opens a bracket and does not close it:
    the login page comes, and [urljoin] raises before the POST. *)
Lemma login_url_error_witness :
  let out := @perform_login scripted (lit "guard") (lit "secret") bracket_url
               (at_portal [ok 200 "<input name=_csrf_token value=tok>";
                           ok 200 "Logout"]) in
  out.2 = inl (lit "Invalid IPv6 URL")
  ∧ map req_method (sent out.1) = [GET].
Proof.
  split; [|reflexivity].
  apply (@login_url_error scripted (lit "guard") (lit "secret") bracket_url
           (at_portal [ok 200 "<input name=_csrf_token value=tok>"; ok 200 "Logout"])
           (lit "Invalid IPv6 URL")).
  split; [reflexivity|]. by exists login_page_ok, token_tag.
Defined.

(** The Login button pressed with no user name. *)
Lemma login_needs_all_fields_witness :
  @login_section scripted (login_run EmptyString) (signed_in [ok 200 "Logout"])
  = (signed_in [ok 200 "Logout"], [st_error PleaseFillAllFields], Finished).
Proof.
  apply (@login_needs_all_fields scripted (login_run EmptyString)
           (signed_in [ok 200 "Logout"])).
  right. right. left. reflexivity.
Defined.

(** A login that fails when a session is stored: the session stays. *)
Lemma failed_login_keeps_session_witness :
  let out := @login_section scripted (login_run "guard") (signed_in [ok 503 "down"]) in
  app_session out.1.1 = Some (@new_session scripted)
  ∧ out.1.2 = [st_error (CouldNotLoadLoginPageStatus 503)]
  ∧ out.2 = Finished.
Proof.
  pose proof (@failed_login_keeps_session scripted (login_run "guard")
                (signed_in [ok 503 "down"]) eq_refl) as Hkeep.
  cbv zeta in Hkeep. cbv zeta. rewrite Hkeep.
  - by vm_compute.
  - discriminate.
  - discriminate.
  - discriminate.
  - intros s msg Hout. vm_compute in Hout. discriminate Hout.
Defined.

(** A run that makes an archive had a session, a sheet with the four
    columns and a base of the report URLs. *)
Lemma download_part_sends_only_when_ready_witness :
  ∃ session df base,
    app_session (signed_in [ok 200 "%PDF-1.4 a"]) = Some session
    ∧ uploaded_csv (upload_run (sheet [night])) = Some (inr df)
    ∧ issubset required_cols (columns df) = true
    ∧ @report_base_url scripted (base_url (upload_run (sheet [night]))) = inr base.
Proof.
  destruct (@download_part_sends_only_when_ready scripted (upload_run (sheet [night]))
              (signed_in [ok 200 "%PDF-1.4 a"]))
    as (session & df & base & Hs & Hdf & Hcols & Hbase & _).
  - left. by eexists.
  - by exists session, df, base.
Defined.

(** A sheet with the four columns and no rows. *)
Lemma empty_sheet_empty_archive_witness :
  let o := @bulk_section scripted (upload_run (sheet [])) (signed_in [ok 200 "Logout"]) in
  out_zip o = Some [] ∧ out_exit o = Finished.
Proof.
  pose proof (@empty_sheet_empty_archive scripted (upload_run (sheet []))
                (signed_in [ok 200 "Logout"]) (sheet []) (@new_session scripted)
                eq_refl eq_refl eq_refl eq_refl) as (_ & Hcase).
  assert (Hbase : @report_base_url scripted (base_url (upload_run (sheet [])))
                  = inr reports_url) by by vm_compute.
  rewrite Hbase in Hcase. destruct Hcase as (Hzip & Hexit & _).
  split; [exact Hzip | exact Hexit].
Defined.

(** The same sheet with a base URL that [urljoin] rejects. *)
Example empty_sheet_bracket_url :
  let o := @bulk_section scripted (upload_run_at bracket_url (sheet []))
             (signed_in [ok 200 "Logout"]) in
  out_zip o = None ∧ out_exit o = ValueError (lit "Invalid IPv6 URL").
Proof. by vm_compute. Qed.

(** A sheet read from a CSV file, with one row. *)
Lemma checked_sheet_no_key_error_witness :
  let exit := out_exit (@script scripted (upload_run (sheet [night]))
                          (signed_in [ok 200 "%PDF-1.4 a"])) in
  exit = Finished ∧ exit ≠ KeyError (lit "id").
Proof.
  split; [by vm_compute|].
  apply (@checked_sheet_no_key_error scripted (upload_run (sheet [night]))
           (signed_in [ok 200 "%PDF-1.4 a"])).
  intros df [= <-]. unfold df_wf.
  apply (bool_decide_unpack _). by vm_compute.
Defined.

(** The request of the second row carries the jar with the cookie that
    the reply to the first row set. *)
Lemma loop_requests_witness :
  sent (l_net (@fetch_rows scripted reports_url [series night; series day]
                 (start_loop [ok_with_cookie 200 "%PDF-1.4 a" "PHPSESSID" "renewed";
                              ok 404 "gone"])).1)
  !! 1%nat
  = Some {| req_method := GET;
            req_url :=
              lit "https://client.tracktik.com/patrol/default/viewreportprintable/idreport/18";
            req_headers := ∅;
            req_jar := {[ portal_cookie "PHPSESSID" := cookie "renewed" ]};
            req_data := [];
            req_allow_redirects := true;
            req_timeout := 20 |}.
Proof.
  pose proof (@loop_requests scripted reports_url [series night; series day]
                [night; day]
                (start_loop [ok_with_cookie 200 "%PDF-1.4 a" "PHPSESSID" "renewed";
                             ok 404 "gone"])
                eq_refl) as (_ & _ & _ & _ & _ & Hat).
  refine (Hat 1%nat day _ eq_refl).
  apply (bool_decide_unpack _). by vm_compute.
Defined.

(** The archive of a run with one report fetched and one refused. *)
Lemma archive_holds_pdfs_witness :
  ∃ df,
    uploaded_csv (upload_run (sheet [night; day])) = Some (inr df)
    ∧ Forall (fun e =>
                [Byte.x25; Byte.x50; Byte.x44; Byte.x46] `prefix_of` e.2
                ∧ ∃ row d, row ∈ rows df ∧ row_descriptor row = inr d
                    ∧ @zip_member_name scripted (filename d) = inr e.1)
        [(lit "Patrol_ACME_2024-01-05_(17).pdf", blit "%PDF-1.4 a")].
Proof.
  apply (@archive_holds_pdfs scripted (upload_run (sheet [night; day]))
           (signed_in [ok 200 "%PDF-1.4 a"; ok 404 "gone"])).
  reflexivity.
Defined.

(** The URL of the login form for the base URL of the form. *)
Lemma login_urls_witness :
  @urljoin scripted portal_url (lit "/form/secursignin/signin")
  = inr (lit "https://client.tracktik.com/form/secursignin/signin").
Proof.
  pose proof (@login_urls scripted no_check no_check (lit "https")
                (lit "client.tracktik.com") (lit "/") scripted_urljoin) as Hurl.
  destruct Hurl as (Hsignin & _).
  - apply (bool_decide_unpack _). by vm_compute.
  - discriminate.
  - apply (bool_decide_unpack _). by vm_compute.
  - right. exists 47%N, []. split; [reflexivity|].
    apply (bool_decide_unpack _). by vm_compute.
  - exact Hsignin.
Defined.

(** Two reports fetched in a run that gets to its end. *)
Lemma finished_archive_names_distinct_witness :
  NoDup [lit "Patrol_ACME_2024-01-05_(17).pdf"; lit "Patrol_ACME_2024-01-05_(18).pdf"].
Proof.
  apply (@finished_archive_names_distinct scripted (upload_run (sheet [night; day]))
           (signed_in [ok 200 "%PDF-1.4 a"; ok 200 "%PDF-1.4 b"])
           (sheet [night; day])
           [ (lit "Patrol_ACME_2024-01-05_(17).pdf", blit "%PDF-1.4 a");
             (lit "Patrol_ACME_2024-01-05_(18).pdf", blit "%PDF-1.4 b") ]).
  - intros n b b'. reflexivity.
  - apply member_name_kept.
  - reflexivity.
  - repeat constructor; intros d [= <-];
      apply (bool_decide_unpack _); by vm_compute.
  - reflexivity.
  - reflexivity.
Defined.

(** Two rows whose file names differ after a NUL only: the archive
    gets the same member name twice, in a run that gets to its end. *)
Example names_cut_at_nul :
  let o := @bulk_section scripted
             (upload_run
                (sheet [ {| rid := Str [49; 0; 65]%N; reportname := Str (lit "Pat");
                            account_name := Str (lit "ACME");
                            date := Str (lit "2024-01-05") |};
                         {| rid := Str [49; 0; 66]%N; reportname := Str (lit "Pat");
                            account_name := Str (lit "ACME");
                            date := Str (lit "2024-01-05") |} ]))
             (signed_in [ok 200 "%PDF-1.4 a"; ok 200 "%PDF-1.4 b"]) in
  out_exit o = Finished
  ∧ out_zip o = Some [ (lit "Pat_ACME_2024-01-05_(1", blit "%PDF-1.4 a");
                        (lit "Pat_ACME_2024-01-05_(1", blit "%PDF-1.4 b") ].
Proof. by vm_compute. Qed.

(** A login and an upload in one run: the request of the report carries
    the jar with the cookie of the login. *)
Lemma fresh_login_used_by_loop_witness :
  sent (app_net (out_app
    (@script scripted (login_and_upload (sheet [night]))
       (signed_out [ok_with_cookie 200 "<input name=_csrf_token value=tok>"
                      "PHPSESSID" "fresh";
                    ok 302 "moved"; ok 200 "%PDF-1.4 a"]))))
  !! 2%nat
  = Some {| req_method := GET;
            req_url :=
              lit "https://client.tracktik.com/patrol/default/viewreportprintable/idreport/17";
            req_headers := ∅;
            req_jar := {[ portal_cookie "PHPSESSID" := cookie "fresh" ]};
            req_data := [];
            req_allow_redirects := true;
            req_timeout := 20 |}.
Proof.
  pose proof (@fresh_login_used_by_loop scripted (login_and_upload (sheet [night]))
                (signed_out [ok_with_cookie 200 "<input name=_csrf_token value=tok>"
                               "PHPSESSID" "fresh";
                             ok 302 "moved"; ok 200 "%PDF-1.4 a"])
                fresh_session LoginSent (sheet [night]) reports_url [night]
                eq_refl) as Hrun.
  destruct Hrun as (_ & _ & _ & _ & _ & Hat);
    [discriminate|discriminate|discriminate|
     reflexivity|reflexivity|reflexivity|reflexivity|reflexivity|].
  refine (Hat 0%nat night _ eq_refl).
  apply (bool_decide_unpack _). by vm_compute.
Defined.

(** An upload by a user who has not signed in. *)
Lemma upload_needs_session_witness :
  let o := @script scripted (upload_run (sheet [night]))
             (signed_out [ok 200 "%PDF-1.4 a"]) in
  out_zip o = None
  ∧ last (out_ui o) = Some (st_error PleaseLoginFirst).
Proof.
  pose proof (@upload_needs_session scripted (upload_run (sheet [night]))
                (signed_out [ok 200 "%PDF-1.4 a"]) (inr (sheet [night]))
                eq_refl eq_refl) as (Hzip & _ & _ & Hlast).
  split; [exact Hzip|]. exact (proj2 (Hlast eq_refl)).
Defined.

(** An upload that is not a CSV file, by a user who has signed in. *)
Lemma unreadable_csv_stops_witness :
  out_exit (@script scripted unreadable_upload (signed_in [ok 200 "%PDF-1.4 a"]))
  = Stopped.
Proof.
  pose proof (@unreadable_csv_stops scripted unreadable_upload
                (signed_in [ok 200 "%PDF-1.4 a"])
                (lit "No columns to parse from file") eq_refl) as Hstop.
  destruct Hstop as (_ & _ & Hfin).
  - by eexists.
  - exact (proj1 (Hfin eq_refl)).
Defined.

(** Two rows with the same file name: an empty identifier cell and the
    text it is shown as. *)
Lemma filename_determines_id_witness :
  py_str NaN = py_str (Str (lit "nan")).
Proof.
  apply (filename_determines_id
           {| rid := NaN; reportname := Str (lit "A/B");
              account_name := Str (lit "ACME"); date := Str (lit "2024-01-05") |}
           {| rid := Str (lit "nan"); reportname := Str (lit "A:B");
              account_name := Str (lit "ACME"); date := Str (lit "2024-01-05") |}).
  - apply (bool_decide_unpack _). by vm_compute.
  - apply (bool_decide_unpack _). by vm_compute.
  - reflexivity.
Defined.

(** A sheet uploaded with a base URL that [urljoin] rejects: the run
    ends with the [ValueError], after the sheet has been shown. *)
Lemma report_url_error_stops_download_witness :
  let o := @bulk_section scripted (upload_run_at bracket_url (sheet [night]))
             (signed_in [ok 200 "%PDF-1.4 a"]) in
  out_exit o = ValueError (lit "Invalid IPv6 URL")
  ∧ out_zip o = None
  ∧ sent (app_net (out_app o)) = [].
Proof.
  cbv zeta.
  rewrite (@report_url_error_stops_download scripted
             (upload_run_at bracket_url (sheet [night]))
             (signed_in [ok 200 "%PDF-1.4 a"]) (sheet [night]) (@new_session scripted)
             (lit "Invalid IPv6 URL") eq_refl eq_refl eq_refl eq_refl).
  by vm_compute.
Defined.
